(** * The ONNX / Elastic Inference hosting notebook

    A shallow embedding of the code cells of
    [sagemaker-python-sdk/mxnet_onnx_eia/mxnet_onnx_eia.ipynb]:
    the image preprocessing pipeline ([preprocess]), the label file
    loader and the top-5 ranking loop, and the cells that hand the
    uploaded model artifact to the model constructor and to [deploy].

    The notebook is a sequence of calls into MXNet, NumPy and the
    SageMaker SDK.  Each library function the cells call is written out
    here as the function it is in the library (MXNet 1.4.1, the
    [framework_version] the notebook names): array shapes and flat
    row-major buffers as MXNet's NDArray has them, single precision
    arithmetic as the Standard Library's executable IEEE 754
    specification ([SpecFloat]) at precision 24, and the argsort of
    NumPy on its index array. *)

From Stdlib Require Import ZArith List Bool Arith Lia String Ascii.
From Stdlib Require Import Permutation Sorted SpecFloat DecimalString.
Import ListNotations.

Set Implicit Arguments.

(** ** IEEE 754 numbers *)

(** [float32] is the dtype [ToTensor] returns and [Normalize] computes
    in.  All operations round to nearest, ties to even. *)
Module Float32.
Definition prec : Z := 24.
Definition emax : Z := 128.
Definition t := spec_float.
Definition of_Z (z : Z) : t := binary_normalize prec emax z 0 false.
Definition add : t -> t -> t := SFadd prec emax.
Definition sub : t -> t -> t := SFsub prec emax.
Definition mul : t -> t -> t := SFmul prec emax.
Definition div : t -> t -> t := SFdiv prec emax.
Definition leb : t -> t -> bool := SFleb.
(** The single precision number nearest to the decimal literal
    [n / 1000]: both operands are exact, so the one rounding of the
    division is the rounding of the literal. *)
Definition of_milli (n : Z) : t := div (of_Z n) (of_Z 1000).
(** [2 ^ (- k)]. *)
Definition pow2_neg (k : Z) : t := SFldexp prec emax (of_Z 1) (- k).
(** Machine epsilon of single precision, [numpy.finfo(float32).eps]. *)
Definition eps : t := pow2_neg 23.
End Float32.

(** [float64] is what a Python [float] is: the scores the predictor
    returns, and the dtype NumPy sorts them in. *)
Module Float64.
Definition prec : Z := 53.
Definition emax : Z := 1024.
Definition t := spec_float.
Definition of_Z (z : Z) : t := binary_normalize prec emax z 0 false.
Definition add : t -> t -> t := SFadd prec emax.
Definition mul : t -> t -> t := SFmul prec emax.
Definition div : t -> t -> t := SFdiv prec emax.
Definition ltb : t -> t -> bool := SFltb.
Definition is_nan (x : t) : bool :=
  match x with S754_nan => true | _ => false end.
(** The doubles nearest to the decimal literals [n / 100] and
    [n / 1000]. *)
Definition of_centi (n : Z) : t := div (of_Z n) (of_Z 100).
Definition of_milli (n : Z) : t := div (of_Z n) (of_Z 1000).
(** NumPy's [DOUBLE_LT]: [a < b || (b != b && a == a)], which sorts
    NaN to the end. *)
Definition np_lt (a b : t) : bool :=
  ltb a b || (is_nan b && negb (is_nan a)).
End Float64.

(** ** Exceptions *)

Inductive exn : Type :=
| MXNetError          (* a failed check inside an MXNet operator *)
| ValueError          (* unpacking [h, w, _ = x.shape] of a non 3-d array *)
| ZeroDivisionError
| IndexError
| NameError.          (* a notebook variable read before it is assigned *)

Inductive result (A : Type) : Type :=
| Ok (a : A)
| Raise (e : exn).

Arguments Ok {A} a.
Arguments Raise {A} e.

Definition bind {A B : Type} (r : result A) (k : A -> result B) : result B :=
  match r with
  | Ok a => k a
  | Raise e => Raise e
  end.

Notation "x <- r ;; k" := (bind r (fun x => k))
  (at level 61, r at next level, right associativity).

(** ** NDArray *)

(** An NDArray is a shape and a flat buffer in row-major order. *)
Record NDArray (A : Type) : Type := mkNDArray {
  shape : list nat;
  data : list A
}.

Definition tabulate {A : Type} (n : nat) (f : nat -> A) : list A :=
  map f (seq 0 n).

Definition numel (s : list nat) : nat := fold_right Nat.mul 1 s.

(** A well-formed array holds as many elements as its shape says. *)
Definition wf {A : Type} (x : NDArray A) : Prop :=
  List.length (data x) = numel (shape x).

(** [uint8] is the dtype of a decoded image. *)
Definition is_uint8 (p : Z) : bool := (0 <=? p)%Z && (p <=? 255)%Z.

Definition saturate_uint8 (p : Z) : Z := Z.max 0 (Z.min 255 p).

(** ** The image transforms *)

Section Transforms.

(** The interpolation kernel of OpenCV's [resize], which MXNet's
    [imresize] calls: [cv_resize interp src w h k] is the value
    computed for flat position [k] of the [h x w x c] output, before
    it is saturated to [uint8].  The transforms are defined for every
    such kernel. *)
Variable cv_resize : nat -> NDArray Z -> nat -> nat -> nat -> Z.

(** [mx.image.imresize(src, w, h, interp)]: a fresh [h x w x c] array
    for an [H x W x c] source; empty sources and targets are refused. *)
Definition imresize (src : NDArray Z) (w h interp : nat) : result (NDArray Z) :=
  match shape src with
  | [sh; sw; c] =>
      if (sh =? 0) || (sw =? 0) || (c =? 0) || (w =? 0) || (h =? 0)
      then Raise MXNetError
      else Ok {| shape := [h; w; c];
                 data := tabulate (h * w * c)
                           (fun k => saturate_uint8 (cv_resize interp src w h k)) |}
  | _ => Raise MXNetError
  end.

(** [transforms.Resize(size, keep_ratio=False, interpolation=1)],
    method [forward], for an integer [size]. *)
Definition Resize (size : nat) (keep_ratio : bool) (interpolation : nat)
           (x : NDArray Z) : result (NDArray Z) :=
  if negb keep_ratio then
    imresize x size size interpolation
  else
    match shape x with
    | [h; w; _] =>
        if w <? h then
          if w =? 0 then Raise ZeroDivisionError
          else imresize x size (h * size / w) interpolation
        else
          if h =? 0 then Raise ZeroDivisionError
          else imresize x (w * size / h) size interpolation
    | _ => Raise ValueError
    end.

(** [mx.image.scale_down(src_size, size)]: shrink the crop so that it
    fits the source.  The crop of the notebook is square, where the
    float quotients of the library are whole numbers. *)
Definition scale_down (src_size size : nat * nat) : nat * nat :=
  let '(w, h) := size in
  let '(sw, sh) := src_size in
  let '(w, h) := if sh <? h then (w * sh / h, sh) else (w, h) in
  let '(w, h) := if sw <? w then (sw, h * sw / w) else (w, h) in
  (w, h).

(** [nd.slice(src, begin=(y0, x0, 0), end=(y0 + h, x0 + w, c))]. *)
Definition slice_hwc (src : NDArray Z) (sw c y0 x0 h w : nat) : NDArray Z :=
  {| shape := [h; w; c];
     data := tabulate (h * w * c)
               (fun k => let ch := k mod c in
                         let x := (k / c) mod w in
                         let y := k / (c * w) in
                         nth (((y0 + y) * sw + (x0 + x)) * c + ch) (data src) 0%Z) |}.

(** [mx.image.fixed_crop(src, x0, y0, w, h, size, interp)]. *)
Definition fixed_crop (src : NDArray Z) (x0 y0 w h : nat) (size : nat * nat)
           (interp : nat) : result (NDArray Z) :=
  match shape src with
  | [_; sw; c] =>
      let out := slice_hwc src sw c y0 x0 h w in
      if (w =? fst size) && (h =? snd size) then Ok out
      else imresize out (fst size) (snd size) interp
  | _ => Raise MXNetError
  end.

(** [mx.image.center_crop(src, size, interp)], its first component. *)
Definition center_crop (src : NDArray Z) (size : nat * nat) (interp : nat)
  : result (NDArray Z) :=
  match shape src with
  | [h; w; _] =>
      let '(new_w, new_h) := scale_down (w, h) size in
      let x0 := (w - new_w) / 2 in
      let y0 := (h - new_h) / 2 in
      fixed_crop src x0 y0 new_w new_h size interp
  | _ => Raise ValueError
  end.

(** [transforms.CenterCrop(size, interpolation=1)] for an integer
    [size], which the constructor turns into [(size, size)]. *)
Definition CenterCrop (size : nat) (interpolation : nat) (x : NDArray Z)
  : result (NDArray Z) :=
  center_crop x (size, size) interpolation.

(** [transforms.ToTensor()]: [H x W x C] to [C x H x W] in float32,
    [output[c*length + l] = float(input[l*channel + c]) / 255.0f]. *)
Definition ToTensor (x : NDArray Z) : result (NDArray Float32.t) :=
  match shape x with
  | [h; w; channel] =>
      let length := h * w in
      Ok {| shape := [channel; h; w];
            data := tabulate (channel * length)
                      (fun k => let c := k / length in
                                let l := k mod length in
                                Float32.div
                                  (Float32.of_Z (nth (l * channel + c) (data x) 0%Z))
                                  (Float32.of_Z 255)) |}
  | _ => Raise MXNetError
  end.

(** [transforms.Normalize(mean, std)]:
    [output[i*length + j] = (input[i*length + j] - mean[i]) / std[i]]
    for a [C x H x W] input of 1 or 3 channels. *)
Definition Normalize (mean std : list Float32.t) (x : NDArray Float32.t)
  : result (NDArray Float32.t) :=
  match shape x with
  | [nchannels; h; w] =>
      if negb ((nchannels =? 3) || (nchannels =? 1)) then Raise MXNetError
      else if negb ((List.length mean =? 1) || (List.length mean =? nchannels))
      then Raise MXNetError
      else if negb ((List.length std =? 1) || (List.length std =? nchannels))
      then Raise MXNetError
      else
        let length := h * w in
        Ok {| shape := [nchannels; h; w];
              data := tabulate (nchannels * length)
                        (fun k => let i := k / length in
                                  let m := nth (if 1 <? List.length mean then i else 0)
                                               mean S754_nan in
                                  let s := nth (if 1 <? List.length std then i else 0)
                                               std S754_nan in
                                  Float32.div
                                    (Float32.sub (nth k (data x) S754_nan) m) s) |}
  | _ => Raise MXNetError
  end.

(** [x.expand_dims(axis)]: a dimension of size 1 is inserted at
    position [axis]; the buffer is the same. *)
Definition expand_dims {A : Type} (x : NDArray A) (axis : nat)
  : result (NDArray A) :=
  if List.length (shape x) <? axis then Raise MXNetError
  else Ok {| shape := firstn axis (shape x) ++ 1 :: skipn axis (shape x);
             data := data x |}.

Definition mean : list Float32.t := map Float32.of_milli [485; 456; 406]%Z.
Definition std : list Float32.t := map Float32.of_milli [229; 224; 225]%Z.

(** The [transforms.Compose] of the notebook, applied in order. *)
Definition transform_fn (img : NDArray Z) : result (NDArray Float32.t) :=
  x <- Resize 256 false 1 img ;;
  x <- CenterCrop 224 1 x ;;
  x <- ToTensor x ;;
  Normalize mean std x.

(** [preprocess(img)]. *)
Definition preprocess (img : NDArray Z) : result (NDArray Float32.t) :=
  img <- transform_fn img ;;
  expand_dims img 0.

End Transforms.

(** ** The label file *)

Open Scope string_scope.
Open Scope list_scope.
Open Scope nat_scope.

Definition LF : ascii := ascii_of_nat 10.
Definition CR : ascii := ascii_of_nat 13.

(** Text mode with universal newlines: ["\r\n"] and a lone ["\r"] are
    read as ["\n"]. *)
Fixpoint universal_newlines (s : string) : string :=
  match s with
  | EmptyString => EmptyString
  | String c rest =>
      if Ascii.eqb c CR then
        match rest with
        | String d rest' =>
            if Ascii.eqb d LF then String LF (universal_newlines rest')
            else String LF (universal_newlines rest)
        | EmptyString => String LF EmptyString
        end
      else String c (universal_newlines rest)
  end.

(** Iterating a text file yields its lines, each with its terminator;
    [cur] is the line read so far. *)
Fixpoint iter_lines (cur s : string) : list string :=
  match s with
  | EmptyString => if String.eqb cur "" then [] else [cur]
  | String c rest =>
      if Ascii.eqb c LF then (cur ++ String LF "")%string :: iter_lines "" rest
      else iter_lines (cur ++ String c "") rest
  end.

(** [for l in f] on the text [contents] of the file. *)
Definition file_lines (contents : string) : list string :=
  iter_lines "" (universal_newlines contents).

(** [str.isspace] on the code points below 256. *)
Definition isspace (c : ascii) : bool :=
  let n := nat_of_ascii c in
  ((9 <=? n) && (n <=? 13)) || ((28 <=? n) && (n <=? 32))
  || (n =? 133) || (n =? 160).

(** [l.rstrip()]: drop the trailing whitespace. *)
Fixpoint rstrip (s : string) : string :=
  match s with
  | EmptyString => EmptyString
  | String c rest =>
      match rstrip rest with
      | EmptyString => if isspace c then EmptyString else String c EmptyString
      | r => String c r
      end
  end.

(** [labels = [l.rstrip() for l in f]]. *)
Definition load_labels (contents : string) : list string :=
  map rstrip (file_lines contents).

(** ** The result ranker *)

(** [np.argsort(scores)] with the default kind.  NumPy sorts an array of
    indices in place: a range of more than 17 indices is first
    partitioned, and every range of at most 17 indices is sorted by
    insertion from the right.  [argsort] is that insertion sort run on
    the whole array: it is what NumPy computes for the vectors of up to
    17 scores evaluated below, and for longer vectors it gives the same
    order of scores, possibly with equal scores in another order.

    [insert_index v vi sorted] takes the sorted prefix read from its
    right end and shifts every index whose value is greater than
    [v[vi]] one place up, as the inner [while] loop does. *)
Definition score_at (v : list Float64.t) (i : nat) : Float64.t :=
  nth i v S754_nan.

Fixpoint insert_index (v : list Float64.t) (vi : nat) (sorted : list nat)
  : list nat :=
  match sorted with
  | [] => [vi]
  | k :: rest =>
      if Float64.np_lt (score_at v vi) (score_at v k)
      then k :: insert_index v vi rest
      else vi :: k :: rest
  end.

Definition argsort (v : list Float64.t) : list nat :=
  rev (fold_left (fun sorted vi => insert_index v vi sorted)
                 (seq 0 (List.length v)) []).

(** ['%f' % x]: the exact value of [x] rounded to six decimals, ties to
    even.  [micro m e] is [m * 2 ^ e * 10 ^ 6] rounded to an integer. *)
Definition micro (m : positive) (e : Z) : Z :=
  if (0 <=? e)%Z then (Z.pos m * 2 ^ e * 10 ^ 6)%Z
  else
    let den := (2 ^ (- e))%Z in
    let num := (Z.pos m * 10 ^ 6)%Z in
    let q := (num / den)%Z in
    let r := (num mod den)%Z in
    if (den <? 2 * r)%Z || ((2 * r =? den)%Z && Z.odd q) then (q + 1)%Z else q.

Definition digits (n : Z) : string :=
  NilZero.string_of_uint (N.to_uint (Z.to_N n)).

Definition fixed6 (n : Z) : string :=
  (digits (n / 10 ^ 6) ++ "."
   ++ match digits (10 ^ 6 + n mod 10 ^ 6) with
      | String _ frac => frac
      | EmptyString => EmptyString
      end)%string.

Definition format_f (x : Float64.t) : string :=
  match x with
  | S754_nan => "nan"
  | S754_infinity s => if s then "-inf" else "inf"
  | S754_zero s => if s then "-0.000000" else "0.000000"
  | S754_finite s m e => ((if s then "-" else "") ++ fixed6 (micro m e))%string
  end.

(** ['class=%s ; probability=%f' % (label, score)]. *)
Definition format_line (t : string * Float64.t) : string :=
  ("class=" ++ fst t ++ " ; probability=" ++ format_f (snd t))%string.

(** The ranking loop formats and prints one tuple
    [(labels[i], scores[i])] per index and stops at the first exception.
    [print_top] returns the tuples it printed. *)
Fixpoint print_top (labels : list string) (scores : list Float64.t)
         (idx : list nat) : list (string * Float64.t) * option exn :=
  match idx with
  | [] => ([], None)
  | i :: rest =>
      match nth_error labels i with
      | None => ([], Some IndexError)
      | Some l =>
          match nth_error scores i with
          | None => ([], Some IndexError)
          | Some s =>
              let '(out, e) := print_top labels scores rest in
              ((l, s) :: out, e)
          end
      end
  end.

(** [a = np.argsort(scores)[::-1]], then [a[0:5]]. *)
Definition top5 (scores : list Float64.t) : list nat :=
  firstn 5 (rev (argsort scores)).

Definition rank (labels : list string) (scores : list Float64.t)
  : list (string * Float64.t) * option exn :=
  print_top labels scores (top5 scores).

(** ** The notebook *)

(** The arguments of the [MXNetModel] constructor. *)
Record MXNetModel : Type := mkMXNetModel {
  model_data : string;
  entry_point : string;
  role : string;
  py_version : string;
  framework_version : string
}.

(** What [mxnet_model.deploy(...)] submits: the model object and the
    keyword arguments of the call. *)
Record DeployRequest : Type := mkDeployRequest {
  model : MXNetModel;
  initial_instance_count : nat;
  instance_type : string;
  accelerator_type : string
}.

(** The collaborators outside the notebook: the SageMaker SDK, the
    classifier behind the endpoint, the file system and OpenCV.  Any of
    the remote calls may fail. *)
Record Services (Predictor : Type) : Type := mkServices {
  get_execution_role : result string;
  download : string -> result string;
  tar_gz : string -> list string -> result unit;
  upload_data : string -> string -> result string;
  deploy : DeployRequest -> result Predictor;
  predict : Predictor -> NDArray Float32.t -> result (list Float64.t);
  delete_endpoint : Predictor -> result unit;
  imread : string -> result (NDArray Z);
  open_text : string -> result string;
  cv_resize : nat -> NDArray Z -> nat -> nat -> nat -> Z
}.

(** The global variables of the kernel; [None] is a name not yet
    assigned. *)
Record Env (Predictor : Type) : Type := mkEnv {
  v_role : option string;
  v_model_data : option string;
  v_mxnet_model : option MXNetModel;
  v_predictor : option Predictor;
  v_img : option (NDArray Z);
  v_input_image : option (NDArray Float32.t);
  v_scores : option (list Float64.t);
  v_labels : option (list string);
  v_a : option (list nat)
}.

(** What running a cell leaves behind: the variables, the lines printed
    and the exception that stopped it, if any. *)
Record Outcome (Predictor : Type) : Type := mkOutcome {
  env_after : Env Predictor;
  stdout : list string;
  raised : option exn
}.

Section Notebook.

Variable Predictor : Type.
Variable svc : Services Predictor.

Let env : Type := Env Predictor.
Let outcome : Type := Outcome Predictor.

Definition lookup {A : Type} (v : option A) : result A :=
  match v with
  | Some a => Ok a
  | None => Raise NameError
  end.

(** A cell that prints nothing: the variables change only if it runs
    to its end. *)
Definition quiet (e : env) (r : result env) : outcome :=
  match r with
  | Ok e' => {| env_after := e'; stdout := []; raised := None |}
  | Raise x => {| env_after := e; stdout := []; raised := Some x |}
  end.

(** [role = get_execution_role()] *)
Definition cell_role (e : env) : outcome :=
  quiet e (r <- get_execution_role svc ;;
           Ok (mkEnv (Some r) (v_model_data e) (v_mxnet_model e) (v_predictor e)
                     (v_img e) (v_input_image e) (v_scores e) (v_labels e) (v_a e))).

(** [mx.test_utils.download('.../resnet152v1.onnx')] *)
Definition cell_download_model (e : env) : outcome :=
  quiet e (_ <- download svc
             "https://s3.amazonaws.com/onnx-model-zoo/resnet/resnet152v1/resnet152v1.onnx" ;;
           Ok e).

(** The model file is archived,
    [with tarfile.open('onnx_model.tar.gz', mode='w:gz') as archive:
         archive.add('resnet152v1.onnx')],
    and the archive uploaded:
    [model_data = Session().upload_data(path='onnx_model.tar.gz', key_prefix='model')] *)
Definition cell_upload (e : env) : outcome :=
  quiet e (_ <- tar_gz svc "onnx_model.tar.gz" ["resnet152v1.onnx"] ;;
           uri <- upload_data svc "onnx_model.tar.gz" "model" ;;
           Ok (mkEnv (v_role e) (Some uri) (v_mxnet_model e) (v_predictor e)
                     (v_img e) (v_input_image e) (v_scores e) (v_labels e) (v_a e))).

(** [mxnet_model = MXNetModel(model_data=model_data, entry_point='resnet152.py',
                              role=role, py_version='py3', framework_version='1.4.1')] *)
Definition cell_model (e : env) : outcome :=
  quiet e (md <- lookup (v_model_data e) ;;
           r <- lookup (v_role e) ;;
           let m := {| model_data := md; entry_point := "resnet152.py"; role := r;
                       py_version := "py3"; framework_version := "1.4.1" |} in
           Ok (mkEnv (v_role e) (v_model_data e) (Some m) (v_predictor e)
                     (v_img e) (v_input_image e) (v_scores e) (v_labels e) (v_a e))).

(** The request of
    [mxnet_model.deploy(initial_instance_count=1, instance_type='ml.m5.xlarge',
                        accelerator_type='ml.eia1.medium')]. *)
Definition deploy_request (e : env) : result DeployRequest :=
  m <- lookup (v_mxnet_model e) ;;
  Ok {| model := m; initial_instance_count := 1;
        instance_type := "ml.m5.xlarge"; accelerator_type := "ml.eia1.medium" |}.

(** [predictor = mxnet_model.deploy(...)] *)
Definition cell_deploy (e : env) : outcome :=
  quiet e (req <- deploy_request e ;;
           p <- deploy svc req ;;
           Ok (mkEnv (v_role e) (v_model_data e) (v_mxnet_model e) (Some p)
                     (v_img e) (v_input_image e) (v_scores e) (v_labels e) (v_a e))).

(** [img = mx.image.imread(mx.test_utils.download(...))]; the cell also
    shows the image. *)
Definition cell_image (e : env) : outcome :=
  quiet e (img_path <- download svc
             "https://s3.amazonaws.com/onnx-mxnet/examples/mallard_duck.jpg" ;;
           img <- imread svc img_path ;;
           Ok (mkEnv (v_role e) (v_model_data e) (v_mxnet_model e) (v_predictor e)
                     (Some img) (v_input_image e) (v_scores e) (v_labels e) (v_a e))).

(** [input_image = preprocess(img)] *)
Definition cell_preprocess (e : env) : outcome :=
  quiet e (img <- lookup (v_img e) ;;
           x <- preprocess (cv_resize svc) img ;;
           Ok (mkEnv (v_role e) (v_model_data e) (v_mxnet_model e) (v_predictor e)
                     (v_img e) (Some x) (v_scores e) (v_labels e) (v_a e))).

(** [scores = predictor.predict(input_image.asnumpy())] *)
Definition cell_predict (e : env) : outcome :=
  quiet e (p <- lookup (v_predictor e) ;;
           x <- lookup (v_input_image e) ;;
           s <- predict svc p x ;;
           Ok (mkEnv (v_role e) (v_model_data e) (v_mxnet_model e) (v_predictor e)
                     (v_img e) (v_input_image e) (Some s) (v_labels e) (v_a e))).

(** The ranking cell: download and read [synset.txt], sort, print.
    [labels] and [a] are assigned before the loop, so they stay
    assigned when the loop raises. *)
Definition cell_rank (e : env) : outcome :=
  match (_ <- download svc "https://s3.amazonaws.com/onnx-model-zoo/synset.txt" ;;
         open_text svc "synset.txt") with
  | Raise x => {| env_after := e; stdout := []; raised := Some x |}
  | Ok contents =>
      let labels := load_labels contents in
      let e1 := mkEnv (v_role e) (v_model_data e) (v_mxnet_model e) (v_predictor e)
                      (v_img e) (v_input_image e) (v_scores e) (Some labels) (v_a e) in
      match lookup (v_scores e) with
      | Raise x => {| env_after := e1; stdout := []; raised := Some x |}
      | Ok scores =>
          let a := rev (argsort scores) in
          let e2 := mkEnv (v_role e) (v_model_data e) (v_mxnet_model e) (v_predictor e)
                          (v_img e) (v_input_image e) (v_scores e) (Some labels)
                          (Some a) in
          let '(out, x) := print_top labels scores (firstn 5 a) in
          {| env_after := e2; stdout := map format_line out; raised := x |}
      end
  end.

(** [predictor.delete_endpoint()] *)
Definition cell_delete (e : env) : outcome :=
  quiet e (p <- lookup (v_predictor e) ;;
           _ <- delete_endpoint svc p ;;
           Ok e).

(** Running cells one after the other; an exception stops the run. *)
Fixpoint run (cells : list (env -> outcome)) (e : env) : outcome :=
  match cells with
  | [] => {| env_after := e; stdout := []; raised := None |}
  | c :: rest =>
      let o := c e in
      match raised o with
      | Some _ => o
      | None =>
          let o' := run rest (env_after o) in
          {| env_after := env_after o';
             stdout := stdout o ++ stdout o';
             raised := raised o' |}
      end
  end.

End Notebook.

(** ** Specification vocabulary and reference inputs *)

(** Row-major indexing: element [(y, x, c)] of an [H x W x C] image and
    element [(n, c, y, x)] of an [N x C x H x W] tensor. *)
Definition hwc_at (a : NDArray Z) (y x c : nat) : Z :=
  match shape a with
  | [_; w; ch] => nth ((y * w + x) * ch + c) (data a) 0%Z
  | _ => 0%Z
  end.

Definition nchw_at (t : NDArray Float32.t) (n c y x : nat) : Float32.t :=
  match shape t with
  | [_; ch; h; w] => nth (((n * ch + c) * h + y) * w + x) (data t) S754_nan
  | _ => S754_nan
  end.

(** One 8-bit pixel converted by [ToTensor]. *)
Definition scaled (p : Z) : Float32.t :=
  Float32.div (Float32.of_Z p) (Float32.of_Z 255).

(** [(x - mean[c]) / std[c]]. *)
Definition normalized (c : nat) (x : Float32.t) : Float32.t :=
  Float32.div (Float32.sub x (nth c mean S754_nan)) (nth c std S754_nan).

(** The inverse the specification names, [x * std[c] + mean[c]], in the
    dtype of the tensor. *)
Definition denormalized (c : nat) (x : Float32.t) : Float32.t :=
  Float32.add (Float32.mul x (nth c std S754_nan)) (nth c mean S754_nan).

(** The same inverse computed in double precision, with the Python
    floats [0.229, ...] and [0.485, ...] as they are, as NumPy does on
    a float32 array and a list of floats. *)
Definition denormalized64 (c : nat) (x : Float32.t) : Float64.t :=
  Float64.add
    (Float64.mul x (nth c (map Float64.of_milli [229; 224; 225]%Z) S754_nan))
    (nth c (map Float64.of_milli [485; 456; 406]%Z) S754_nan).

(** The number a finite float stands for, as [m * 2 ^ e]. *)
Definition dyadic (x : spec_float) : option (Z * Z) :=
  match x with
  | S754_zero _ => Some (0, 0)%Z
  | S754_finite s m e => Some (if s then Z.neg m else Z.pos m, e)
  | _ => None
  end.

(** [within k a b]: [|a - b| <= 2 ^ (- k)], decided on the exact values
    of [a] and [b], both brought to one exponent. *)
Definition within (k : Z) (a b : spec_float) : bool :=
  match dyadic a, dyadic b with
  | Some (ma, ea), Some (mb, eb) =>
      let e := Z.min (Z.min ea eb) (- k) in
      (Z.abs (ma * 2 ^ (ea - e) - mb * 2 ^ (eb - e)) <=? 2 ^ (- k - e))%Z
  | _, _ => false
  end.

(** [|a - b| <= eps] for the machine epsilon [2 ^ (-23)] of float32. *)
Definition close (a b : Float32.t) : bool := within 23 a b.

(** [0 <= x <= 1]. *)
Definition in_unit_interval (x : Float32.t) : bool :=
  Float32.leb (Float32.of_Z 0) x && Float32.leb x (Float32.of_Z 1).

Definition is_finite (x : spec_float) : bool :=
  match x with
  | S754_zero _ | S754_finite _ _ _ => true
  | _ => false
  end.

(** Height and width keep their proportion: [h' / w' = h / w]. *)
Definition keeps_aspect_ratio (src dst : list nat) : Prop :=
  match src, dst with
  | [h; w; _], [h'; w'; _] => h' * w = h * w'
  | _, _ => False
  end.

Definition shortest_side (s : list nat) : nat :=
  match s with
  | [h; w; _] => Nat.min h w
  | _ => 0
  end.

(** Nearest-neighbour sampling, the kernel [interp = 0] of OpenCV. *)
Definition cv_nearest (interp : nat) (src : NDArray Z) (w h k : nat) : Z :=
  match shape src with
  | [sh; sw; c] =>
      let ch := k mod c in
      let x := (k / c) mod w in
      let y := k / (c * w) in
      nth (((y * sh / h) * sw + x * sw / w) * c + ch) (data src) 0%Z
  | _ => 0%Z
  end.

(** An [h x w] image of one colour. *)
Definition solid_image (h w : nat) (colour : list Z) : NDArray Z :=
  {| shape := [h; w; 3];
     data := tabulate (h * w * 3) (fun k => nth (k mod 3) colour 0%Z) |}.

(** The score vector of the ranking scenario,
    [[0.1, 0.9, 0.05, 0.02, 0.01, 0.02]]. *)
Definition scores6 : list Float64.t :=
  map Float64.of_centi [10; 90; 5; 2; 1; 2]%Z.

Definition labels6 : list string :=
  ["class0"; "class1"; "class2"; "class3"; "class4"; "class5"].

(** Where a label is printed, counting lines from 0. *)
Fixpoint line_of (l : string) (out : list (string * Float64.t)) : option nat :=
  match out with
  | [] => None
  | (l', _) :: rest =>
      if String.eqb l l' then Some 0
      else match line_of l rest with
           | Some n => Some (S n)
           | None => None
           end
  end.

(** A text file written one line at a time, each ended by ["\n"]. *)
Fixpoint unlines (ls : list string) : string :=
  match ls with
  | [] => ""
  | l :: rest => (l ++ String LF (unlines rest))%string
  end.

Fixpoint single_line (s : string) : bool :=
  match s with
  | EmptyString => true
  | String c rest =>
      negb (Ascii.eqb c LF) && negb (Ascii.eqb c CR) && single_line rest
  end.

(** Collaborators for the closed examples: an upload that answers with
    the S3 location of the key, an endpoint whose classifier returns
    [scores6] for every tensor, and a label file of six lines. *)
Definition stub_services : Services unit :=
  {| get_execution_role := Ok "arn:aws:iam::000000000000:role/notebook";
     download := fun url => Ok url;
     tar_gz := fun _ _ => Ok tt;
     upload_data := fun path key_prefix =>
                      Ok ("s3://bucket/" ++ key_prefix ++ "/" ++ path)%string;
     deploy := fun _ => Ok tt;
     predict := fun _ _ => Ok scores6;
     delete_endpoint := fun _ => Ok tt;
     imread := fun _ => Ok (solid_image 256 256 [200; 100; 50]%Z);
     open_text := fun _ => Ok (unlines labels6);
     cv_resize := cv_nearest |}.

Definition empty_env : Env unit :=
  mkEnv None None None None None None None None None.

(** A kernel in which the ranking cell ran before on other data. *)
Definition stale_env : Env unit :=
  mkEnv (Some "role") None None (Some tt)
        (Some (solid_image 256 256 [200; 100; 50]%Z))
        None (Some [S754_nan]) (Some ["stale"]) (Some [0]).

Definition fresh_env : Env unit :=
  mkEnv None None None (Some tt)
        (Some (solid_image 256 256 [200; 100; 50]%Z))
        None None None None.

(** ** Vocabulary of the further properties *)

(** The order NumPy sorts doubles in, as a key compared
    lexicographically: minus infinity, the negative numbers, zero, the
    positive numbers, plus infinity, NaN. *)
Definition sort_key (x : Float64.t) : Z * Z * Z :=
  match x with
  | S754_infinity true => (0, 0, 0)%Z
  | S754_finite true m e => (1, - e, Z.neg m)%Z
  | S754_zero _ => (2, 0, 0)%Z
  | S754_finite false m e => (3, e, Z.pos m)%Z
  | S754_infinity false => (4, 0, 0)%Z
  | S754_nan => (5, 0, 0)%Z
  end.

Definition key_ltb (a b : Z * Z * Z) : bool :=
  let '(a1, a2, a3) := a in
  let '(b1, b2, b3) := b in
  ((a1 <? b1) || ((a1 =? b1) && ((a2 <? b2) || ((a2 =? b2) && (a3 <? b3)))))%Z.

(** [outranks v x y]: index [x] comes before index [y] in the printed
    order: its score is greater, or the scores tie and [x] is the later
    index. *)
Definition outranks (v : list Float64.t) (x y : nat) : Prop :=
  Float64.np_lt (score_at v y) (score_at v x) = true
  \/ (Float64.np_lt (score_at v x) (score_at v y) = false /\ y < x).

(** Whether a string is whitespace only, and whether it ends with a
    whitespace character. *)
Fixpoint all_space (s : string) : bool :=
  match s with
  | EmptyString => true
  | String c rest => isspace c && all_space rest
  end.

Fixpoint ends_with_space (s : string) : bool :=
  match s with
  | EmptyString => false
  | String c EmptyString => isspace c
  | String _ rest => ends_with_space rest
  end.

(** Whether the character [a] does not occur in [s]. *)
Fixpoint free_of (a : ascii) (s : string) : bool :=
  match s with
  | EmptyString => true
  | String c rest => negb (Ascii.eqb c a) && free_of a rest
  end.

(** A text file written one line at a time, each ended by [eol]. *)
Fixpoint unlines_with (eol : string) (ls : list string) : string :=
  match ls with
  | [] => ""
  | l :: rest => (l ++ eol ++ unlines_with eol rest)%string
  end.



(** * Properties *)

(** ** List facts used below *)

Lemma length_tabulate (A : Type) (n : nat) (f : nat -> A) :
  List.length (tabulate n f) = n.
Proof.
  unfold tabulate. now rewrite length_map, length_seq.
Qed.

Lemma nth_tabulate (A : Type) (n : nat) (f : nat -> A) (k : nat) (d : A) :
  k < n -> nth k (tabulate n f) d = f k.
Proof.
  intros Hk. unfold tabulate.
  rewrite (nth_indep _ d (f 0)) by now rewrite length_map, length_seq.
  rewrite map_nth, seq_nth by assumption. reflexivity.
Qed.

Lemma In_firstn (A : Type) (n : nat) (l : list A) (x : A) :
  In x (firstn n l) -> In x l.
Proof.
  intros H. rewrite <- (firstn_skipn n l). apply in_or_app. now left.
Qed.

Lemma NoDup_firstn (A : Type) (n : nat) (l : list A) :
  NoDup l -> NoDup (firstn n l).
Proof.
  revert l. induction n as [|n IH]; intros [|x l] H; simpl; try constructor.
  - inversion H; subst. intros Hin. now apply In_firstn in Hin.
  - inversion H; subst. now apply IH.
Qed.

(** ** The ranker *)

Lemma insert_index_perm (v : list Float64.t) (vi : nat) (sorted : list nat) :
  Permutation (insert_index v vi sorted) (vi :: sorted).
Proof.
  induction sorted as [|k rest IH]; simpl.
  - apply Permutation_refl.
  - destruct (Float64.np_lt (score_at v vi) (score_at v k)).
    + eapply perm_trans; [apply perm_skip, IH | apply perm_swap].
    + apply Permutation_refl.
Qed.

Lemma fold_insert_perm (v : list Float64.t) (todo sorted : list nat) :
  Permutation (fold_left (fun s vi => insert_index v vi s) todo sorted)
              (todo ++ sorted).
Proof.
  revert sorted. induction todo as [|i todo IH]; intros sorted; simpl.
  - apply Permutation_refl.
  - eapply perm_trans; [apply IH|].
    eapply perm_trans.
    + apply Permutation_app_head, insert_index_perm.
    + apply Permutation_sym, Permutation_middle.
Qed.

(** [argsort] returns every index of the vector once. *)
Lemma argsort_perm (v : list Float64.t) :
  Permutation (argsort v) (seq 0 (List.length v)).
Proof.
  unfold argsort.
  eapply perm_trans; [apply Permutation_sym, Permutation_rev|].
  eapply perm_trans; [apply fold_insert_perm|].
  rewrite app_nil_r. apply Permutation_refl.
Qed.

(** Whatever the order a sort leaves its indices in, the first [k] of
    the reversed order are [min k n] distinct indices below [n]. *)
Lemma firstn_rev_of_permutation (idx : list nat) (n k : nat) :
  Permutation idx (seq 0 n) ->
  List.length (firstn k (rev idx)) = Nat.min k n
  /\ NoDup (firstn k (rev idx))
  /\ (forall i, In i (firstn k (rev idx)) -> i < n).
Proof.
  intros P. split; [|split].
  - rewrite length_firstn, length_rev.
    now rewrite (Permutation_length P), length_seq.
  - apply NoDup_firstn, NoDup_rev.
    apply (Permutation_NoDup (Permutation_sym P)), seq_NoDup.
  - intros i H. apply In_firstn in H. apply in_rev in H.
    apply (Permutation_in _ P) in H. apply in_seq in H. lia.
Qed.

Lemma top5_in_range (v : list Float64.t) (i : nat) :
  In i (top5 v) -> i < List.length v.
Proof.
  apply (@firstn_rev_of_permutation _ _ 5 (argsort_perm v)).
Qed.

Lemma top5_NoDup (v : list Float64.t) : NoDup (top5 v).
Proof.
  apply (@firstn_rev_of_permutation _ _ 5 (argsort_perm v)).
Qed.

Lemma top5_length (v : list Float64.t) :
  List.length (top5 v) = Nat.min 5 (List.length v).
Proof.
  apply (@firstn_rev_of_permutation _ _ 5 (argsort_perm v)).
Qed.


(** With a label for every index the loop runs to its end. *)
Lemma print_top_total (labels : list string) (scores : list Float64.t)
      (idx : list nat) :
  (forall i, In i idx -> i < List.length labels /\ i < List.length scores) ->
  print_top labels scores idx
  = (map (fun i => (nth i labels ""%string, score_at scores i)) idx, None).
Proof.
  induction idx as [|i rest IH]; intros H; simpl; [reflexivity|].
  destruct (H i (or_introl eq_refl)) as [Hl Hs].
  rewrite (nth_error_nth' labels ""%string Hl).
  rewrite (nth_error_nth' scores S754_nan Hs).
  rewrite IH by (intros j Hj; apply H; now right).
  reflexivity.
Qed.

(** The first index without a label stops the loop with [IndexError]. *)
Lemma print_top_fails (labels : list string) (scores : list Float64.t)
      (idx : list nat) (i : nat) :
  In i idx -> List.length labels <= i ->
  snd (print_top labels scores idx) = Some IndexError.
Proof.
  induction idx as [|j rest IH]; simpl; [tauto|].
  intros Hin Hi.
  destruct (nth_error labels j) as [lj|] eqn:El; [|reflexivity].
  destruct (nth_error scores j) as [sj|] eqn:Es; [|reflexivity].
  destruct Hin as [->|Hin].
  - apply nth_error_None in Hi. congruence.
  - specialize (IH Hin Hi).
    destruct (print_top labels scores rest) as [out e]. exact IH.
Qed.

(** The ranker fails exactly when one of the indices it selected has no
    label; the lengths themselves are never compared. *)
Lemma rank_raises_iff (labels : list string) (scores : list Float64.t) :
  snd (rank labels scores) = Some IndexError
  <-> exists i, In i (top5 scores) /\ List.length labels <= i.
Proof.
  unfold rank. split.
  - intros H.
    destruct (Forall_Exists_dec (fun i => i < List.length labels)
                (fun i => lt_dec i (List.length labels)) (top5 scores))
      as [Hall|Hex].
    + rewrite Forall_forall in Hall.
      rewrite print_top_total in H; [discriminate|].
      intros i Hi. split; [now apply Hall | now apply top5_in_range].
    + apply Exists_exists in Hex. destruct Hex as (i & Hi & Hn).
      exists i. split; [assumption | lia].
  - intros (i & Hi & Hn). eapply print_top_fails; eassumption.
Qed.

(** C2, as amended: on the score vector [0.1, 0.9, 0.05, 0.02, 0.01,
    0.02] with any six labels the ranker prints exactly five pairs, in
    descending order of score and without the smallest entry (index 4);
    the two entries tied at 0.02 come out with index 5 before index 3,
    because the ascending argsort keeps them in index order and
    [[::-1]] reverses it. *)
Theorem C2_rank_six_scores (l0 l1 l2 l3 l4 l5 : string) :
  argsort scores6 = [4; 3; 5; 2; 0; 1]
  /\ top5 scores6 = [1; 0; 2; 5; 3]
  /\ rank [l0; l1; l2; l3; l4; l5] scores6
     = ([(l1, Float64.of_centi 90); (l0, Float64.of_centi 10);
         (l2, Float64.of_centi 5); (l5, Float64.of_centi 2);
         (l3, Float64.of_centi 2)], None)
  /\ map format_line (fst (rank [l0; l1; l2; l3; l4; l5] scores6))
     = [("class=" ++ l1 ++ " ; probability=0.900000")%string;
        ("class=" ++ l0 ++ " ; probability=0.100000")%string;
        ("class=" ++ l2 ++ " ; probability=0.050000")%string;
        ("class=" ++ l5 ++ " ; probability=0.020000")%string;
        ("class=" ++ l3 ++ " ; probability=0.020000")%string].
Proof.
  repeat split; reflexivity.
Qed.

(** C2, as stated, fails: the label of index 3 is not printed before the
    label of index 5. *)
Lemma C2_tie_order_counterexample :
  ~ (exists i j,
        line_of "class3" (fst (rank labels6 scores6)) = Some i
        /\ line_of "class5" (fst (rank labels6 scores6)) = Some j
        /\ i < j).
Proof.
  intros (i & j & Hi & Hj & Hlt).
  vm_compute in Hi, Hj.
  injection Hi as <-. injection Hj as <-. lia.
Qed.

(** C5: there are a score vector and a label list of different lengths
    on which the ranker raises [IndexError], after it has printed the
    lines whose labels exist; and nothing compares the two lengths, as a
    label list that is too long is accepted without any error. *)
Theorem C5_rank_index_error :
  (exists labels scores,
      List.length labels <> List.length scores
      /\ rank labels scores
         = ([("class1", Float64.of_centi 90); ("class0", Float64.of_centi 10)],
            Some IndexError))
  /\ (exists labels scores,
         List.length labels <> List.length scores
         /\ snd (rank labels scores) = None).
Proof.
  split.
  - exists ["class0"; "class1"]. exists (map Float64.of_centi [10; 90; 5]%Z).
    split; [discriminate | reflexivity].
  - exists (labels6 ++ ["class6"]). exists scores6.
    split; [discriminate | reflexivity].
Qed.

(** C10: for every score vector [argsort] returns a permutation of the
    indices, so the five first indices of the reversed order are
    [min 5 n] pairwise distinct indices of the vector, and reading the
    score at each of them succeeds. *)
Theorem C10_top5_total_distinct (scores : list Float64.t) :
  Permutation (argsort scores) (seq 0 (List.length scores))
  /\ List.length (top5 scores) = Nat.min 5 (List.length scores)
  /\ NoDup (top5 scores)
  /\ (forall i, In i (top5 scores) ->
        i < List.length scores /\ nth_error scores i <> None).
Proof.
  split; [apply argsort_perm|].
  split; [apply top5_length|].
  split; [apply top5_NoDup|].
  intros i Hi. pose proof (top5_in_range scores i Hi) as Hlt.
  split; [assumption | now apply nth_error_Some].
Qed.

(** ** The preprocessor *)

Lemma saturate_uint8_range (p : Z) : is_uint8 (saturate_uint8 p) = true.
Proof.
  unfold is_uint8, saturate_uint8. apply andb_true_intro. split.
  - apply Z.leb_le. lia.
  - apply Z.leb_le. lia.
Qed.

Lemma imresize_ok cv (src : NDArray Z) (sh sw c w h i : nat) :
  shape src = [sh; sw; c] ->
  0 < sh -> 0 < sw -> 0 < c -> 0 < w -> 0 < h ->
  imresize cv src w h i
  = Ok {| shape := [h; w; c];
          data := tabulate (h * w * c)
                    (fun k => saturate_uint8 (cv i src w h k)) |}.
Proof.
  intros Hs Hsh Hsw Hc Hw Hh. unfold imresize. rewrite Hs.
  rewrite !(proj2 (Nat.eqb_neq _ 0)) by lia. reflexivity.
Qed.

(** [Resize(256)] leaves [keep_ratio] at its default. *)
Lemma Resize_256 cv (img : NDArray Z) (h w : nat) :
  shape img = [h; w; 3] -> 0 < h -> 0 < w ->
  Resize cv 256 false 1 img
  = Ok {| shape := [256; 256; 3];
          data := tabulate (256 * 256 * 3)
                    (fun k => saturate_uint8 (cv 1 img 256 256 k)) |}.
Proof.
  intros Hs Hh Hw. unfold Resize. cbn [negb].
  apply (imresize_ok cv img 1 Hs); lia.
Qed.

(** On a [256 x 256] image the crop starts at row and column 16 and is
    not resized again. *)
Lemma CenterCrop_256 cv (r : NDArray Z) :
  shape r = [256; 256; 3] ->
  CenterCrop cv 224 1 r = Ok (slice_hwc r 256 3 16 16 224 224).
Proof.
  intros Hs. unfold CenterCrop, center_crop. rewrite Hs.
  change (scale_down (256, 256) (224, 224)) with (224, 224).
  cbv beta iota.
  change ((256 - 224) / 2) with 16.
  unfold fixed_crop. rewrite Hs. cbn [fst snd].
  rewrite Nat.eqb_refl. reflexivity.
Qed.

Lemma Normalize_ok (x : NDArray Float32.t) (h w : nat) :
  shape x = [3; h; w] ->
  Normalize mean std x
  = Ok {| shape := [3; h; w];
          data := tabulate (3 * (h * w))
                    (fun k => normalized (k / (h * w)) (nth k (data x) S754_nan)) |}.
Proof.
  intros Hs. unfold Normalize. rewrite Hs. reflexivity.
Qed.

(** The whole pipeline on a non-empty three channel image, with the
    intermediate arrays named. *)
Lemma preprocess_steps cv (img : NDArray Z) (h w : nat) :
  shape img = [h; w; 3] -> 0 < h -> 0 < w ->
  exists resized crop tensor out,
    Resize cv 256 false 1 img = Ok resized
    /\ resized = {| shape := [256; 256; 3];
                    data := tabulate (256 * 256 * 3)
                              (fun k => saturate_uint8 (cv 1 img 256 256 k)) |}
    /\ CenterCrop cv 224 1 resized = Ok crop
    /\ crop = slice_hwc resized 256 3 16 16 224 224
    /\ ToTensor crop = Ok tensor
    /\ tensor = {| shape := [3; 224; 224];
                   data := tabulate (3 * (224 * 224))
                             (fun k => scaled (nth (k mod (224 * 224) * 3 + k / (224 * 224))
                                                   (data crop) 0%Z)) |}
    /\ Normalize mean std tensor = Ok out
    /\ out = {| shape := [3; 224; 224];
                data := tabulate (3 * (224 * 224))
                          (fun k => normalized (k / (224 * 224))
                                               (nth k (data tensor) S754_nan)) |}
    /\ transform_fn cv img = Ok out
    /\ expand_dims out 0 = Ok {| shape := [1; 3; 224; 224]; data := data out |}
    /\ preprocess cv img = Ok {| shape := [1; 3; 224; 224]; data := data out |}.
Proof.
  intros Hs Hh Hw.
  pose proof (Resize_256 cv img Hs Hh Hw) as HR.
  set (resized := {| shape := [256; 256; 3]; data := _ |}) in HR.
  pose proof (CenterCrop_256 cv resized eq_refl) as HC.
  set (crop := slice_hwc resized 256 3 16 16 224 224) in HC.
  assert (HT : ToTensor crop
               = Ok {| shape := [3; 224; 224];
                       data := tabulate (3 * (224 * 224))
                                 (fun k => scaled (nth (k mod (224 * 224) * 3 + k / (224 * 224))
                                                       (data crop) 0%Z)) |})
    by reflexivity.
  set (tensor := {| shape := [3; 224; 224]; data := _ |}) in HT.
  pose proof (Normalize_ok tensor eq_refl) as HN.
  set (out := {| shape := [3; 224; 224]; data := _ |}) in HN.
  assert (Htf : transform_fn cv img = Ok out).
  { unfold transform_fn. rewrite HR. cbn [bind]. rewrite HC. cbn [bind].
    rewrite HT. cbn [bind]. exact HN. }
  exists resized, crop, tensor, out.
  split; [exact HR|]. split; [exact eq_refl|].
  split; [exact HC|]. split; [exact eq_refl|].
  split; [exact HT|]. split; [exact eq_refl|].
  split; [exact HN|]. split; [exact eq_refl|].
  split; [exact Htf|].
  assert (Hx : expand_dims out 0
               = Ok {| shape := [1; 3; 224; 224]; data := data out |})
    by exact eq_refl.
  split; [exact Hx|].
  unfold preprocess. rewrite Htf. exact Hx.
Qed.

(** The machine epsilon of float32 is [2 ^ (-23)]. *)
Lemma eps_value : dyadic Float32.eps = Some (2 ^ 23, - 46)%Z.
Proof.
  reflexivity.
Qed.

(** Every 8-bit pixel value of every channel, checked by evaluation:
    the scaled pixel lies in [0, 1], the normalized value is finite and
    [x * std + mean], in single or in double precision, brings it back
    to the scaled pixel within the machine epsilon. *)
Lemma pixel_table :
  forallb (fun c =>
    forallb (fun p =>
      in_unit_interval (scaled p)
      && is_finite (normalized c (scaled p))
      && close (denormalized c (normalized c (scaled p))) (scaled p)
      && close (denormalized64 c (normalized c (scaled p))) (scaled p))
      (map Z.of_nat (seq 0 256)))
    (seq 0 3) = true.
Proof.
  vm_compute. reflexivity.
Qed.

Lemma pixel_round_trip (c : nat) (p : Z) :
  c < 3 -> is_uint8 p = true ->
  in_unit_interval (scaled p) = true
  /\ is_finite (normalized c (scaled p)) = true
  /\ close (denormalized c (normalized c (scaled p))) (scaled p) = true
  /\ close (denormalized64 c (normalized c (scaled p))) (scaled p) = true.
Proof.
  intros Hc Hp.
  unfold is_uint8 in Hp. apply andb_prop in Hp. destruct Hp as [H0 H255].
  apply Z.leb_le in H0. apply Z.leb_le in H255.
  pose proof pixel_table as T.
  rewrite forallb_forall in T.
  specialize (T c). rewrite in_seq in T. specialize (T ltac:(lia)).
  rewrite forallb_forall in T.
  specialize (T p).
  assert (Hin : In p (map Z.of_nat (seq 0 256))).
  { rewrite <- (Z2Nat.id p) by assumption.
    apply in_map. apply in_seq. lia. }
  specialize (T Hin).
  apply andb_prop in T. destruct T as [T T4].
  apply andb_prop in T. destruct T as [T T3].
  apply andb_prop in T. destruct T as [T1 T2].
  auto.
Qed.

Lemma flat_chw (c y x : nat) :
  c < 3 -> y < 224 -> x < 224 ->
  let k := (c * 224 + y) * 224 + x in
  k < 3 * (224 * 224)
  /\ k / (224 * 224) = c
  /\ k mod (224 * 224) = y * 224 + x.
Proof.
  intros Hc Hy Hx k. subst k.
  assert (E : (c * 224 + y) * 224 + x = (224 * 224) * c + (y * 224 + x)) by lia.
  split; [lia|]. rewrite E. split.
  - symmetry. apply (Nat.div_unique _ _ c (y * 224 + x)); lia.
  - symmetry. apply (Nat.mod_unique _ _ c (y * 224 + x)); lia.
Qed.

(** The crop copies the pixels of rows and columns 16 to 239. *)
Lemma crop_pixel (r : NDArray Z) (y x c : nat) :
  shape r = [256; 256; 3] ->
  y < 224 -> x < 224 -> c < 3 ->
  hwc_at (slice_hwc r 256 3 16 16 224 224) y x c = hwc_at r (16 + y) (16 + x) c.
Proof.
  intros Hs Hy Hx Hc. unfold hwc_at. rewrite Hs.
  unfold slice_hwc. cbn [shape data].
  rewrite nth_tabulate by lia.
  assert (E : (y * 224 + x) * 3 + c = 3 * (y * 224 + x) + c) by lia.
  assert (D : ((y * 224 + x) * 3 + c) / 3 = y * 224 + x).
  { rewrite E. symmetry. apply (Nat.div_unique _ _ _ c); lia. }
  assert (M : ((y * 224 + x) * 3 + c) mod 3 = c).
  { rewrite E. symmetry. apply (Nat.mod_unique _ _ (y * 224 + x)); lia. }
  assert (X : (y * 224 + x) mod 224 = x).
  { symmetry. apply (Nat.mod_unique _ _ y); lia. }
  assert (Y : ((y * 224 + x) * 3 + c) / (3 * 224) = y).
  { symmetry. apply (Nat.div_unique _ _ _ (x * 3 + c)); lia. }
  cbv zeta. rewrite D, M, X, Y. reflexivity.
Qed.

Lemma resized_uint8 cv (img : NDArray Z) (y x c : nat) :
  y < 256 -> x < 256 -> c < 3 ->
  is_uint8 (hwc_at {| shape := [256; 256; 3];
                      data := tabulate (256 * 256 * 3)
                                (fun k => saturate_uint8 (cv 1 img 256 256 k)) |}
                   y x c) = true.
Proof.
  intros Hy Hx Hc. unfold hwc_at. cbn [shape data].
  rewrite nth_tabulate by lia. apply saturate_uint8_range.
Qed.

(** What [preprocess] returns, element by element. *)
Lemma preprocess_elements cv (img : NDArray Z) (h w : nat) :
  shape img = [h; w; 3] -> 0 < h -> 0 < w ->
  exists resized crop out,
    Resize cv 256 false 1 img = Ok resized
    /\ shape resized = [256; 256; 3]
    /\ CenterCrop cv 224 1 resized = Ok crop
    /\ shape crop = [224; 224; 3]
    /\ preprocess cv img = Ok out
    /\ shape out = [1; 3; 224; 224]
    /\ List.length (data out) = 3 * (224 * 224)
    /\ (forall k, k < 3 * (224 * 224) ->
          exists p, is_uint8 p = true
                    /\ nth k (data out) S754_nan
                       = normalized (k / (224 * 224)) (scaled p))
    /\ (forall c y x, c < 3 -> y < 224 -> x < 224 ->
          is_uint8 (hwc_at crop y x c) = true
          /\ hwc_at crop y x c = hwc_at resized (16 + y) (16 + x) c
          /\ nchw_at out 0 c y x = normalized c (scaled (hwc_at crop y x c))).
Proof.
  intros Hs Hh Hw.
  destruct (preprocess_steps cv img Hs Hh Hw)
    as (resized & crop & tensor & out & HR & Er & HC & Ec & _ & Et & _ & Eo & _ & _ & HP).
  exists resized, crop, {| shape := [1; 3; 224; 224]; data := data out |}.
  assert (Sr : shape resized = [256; 256; 3]) by (rewrite Er; reflexivity).
  assert (Sc : shape crop = [224; 224; 3]) by (rewrite Ec; reflexivity).
  assert (Pix : forall c y x, c < 3 -> y < 224 -> x < 224 ->
            is_uint8 (hwc_at crop y x c) = true
            /\ hwc_at crop y x c = hwc_at resized (16 + y) (16 + x) c).
  { intros c y x Hc Hy Hx.
    assert (E : hwc_at crop y x c = hwc_at resized (16 + y) (16 + x) c)
      by (rewrite Ec; now apply crop_pixel).
    split; [|exact E]. rewrite E, Er. apply resized_uint8; lia. }
  assert (El : forall k, k < 3 * (224 * 224) ->
            nth k (data out) S754_nan
            = normalized (k / (224 * 224))
                (scaled (hwc_at crop (k mod (224 * 224) / 224)
                                (k mod (224 * 224) mod 224) (k / (224 * 224))))).
  { intros k Hk. rewrite Eo. cbn [data].
    rewrite nth_tabulate by assumption.
    rewrite Et. cbn [data]. rewrite nth_tabulate by assumption.
    unfold hwc_at. rewrite Sc.
    rewrite (Nat.mul_comm (k mod (224 * 224) / 224) 224).
    rewrite <- (Nat.div_mod_eq (k mod (224 * 224)) 224). reflexivity. }
  split; [exact HR|]. split; [exact Sr|]. split; [exact HC|]. split; [exact Sc|].
  split; [exact HP|].
  split; [reflexivity|].
  split; [cbn [data]; rewrite Eo; cbn [data]; apply length_tabulate|].
  split.
  - intros k Hk. eexists. split; [|apply (El k Hk)].
    apply Pix.
    + apply Nat.Div0.div_lt_upper_bound. lia.
    + apply Nat.Div0.div_lt_upper_bound.
      pose proof (Nat.mod_upper_bound k (224 * 224)). lia.
    + apply Nat.mod_upper_bound. lia.
  - intros c y x Hc Hy Hx.
    destruct (Pix c y x Hc Hy Hx) as [Hu He].
    split; [exact Hu|]. split; [exact He|].
    destruct (flat_chw Hc Hy Hx) as (Hk & Hd & Hm).
    unfold nchw_at. cbn [shape data].
    change ((0 * 3 + c) * 224 + y) with (c * 224 + y).
    rewrite (El _ Hk). rewrite Hd, Hm.
    assert (Y : (y * 224 + x) / 224 = y)
      by (symmetry; apply (Nat.div_unique _ _ _ x); lia).
    assert (X : (y * 224 + x) mod 224 = x)
      by (symmetry; apply (Nat.mod_unique _ _ y); lia).
    rewrite Y, X. reflexivity.
Qed.

(** C1, as amended: the first step of [preprocess] is [Resize(256)] with
    [keep_ratio] left at [False]; it turns every non-empty three channel
    image into a 256 x 256 image, both sides becoming 256, and the
    224 x 224 centre crop is taken from that image.  The aspect ratio
    is kept for square images only. *)
Theorem C1_resize_both_sides cv (img : NDArray Z) (h w : nat) :
  shape img = [h; w; 3] -> 0 < h -> 0 < w ->
  exists resized,
    Resize cv 256 false 1 img = Ok resized
    /\ shape resized = [256; 256; 3]
    /\ List.length (data resized) = 256 * 256 * 3
    /\ transform_fn cv img
       = (x <- CenterCrop cv 224 1 resized ;;
          x <- ToTensor x ;;
          Normalize mean std x)
    /\ (keeps_aspect_ratio (shape img) (shape resized) <-> h = w).
Proof.
  intros Hs Hh Hw.
  pose proof (Resize_256 cv img Hs Hh Hw) as HR.
  set (resized := {| shape := [256; 256; 3]; data := _ |}) in HR.
  exists resized.
  split; [exact HR|].
  split; [exact eq_refl|].
  split; [apply length_tabulate|].
  split.
  - unfold transform_fn. rewrite HR. exact eq_refl.
  - rewrite Hs. unfold keeps_aspect_ratio. cbn [shape resized]. lia.
Qed.

(** A 300 x 600 image of one colour, resized with nearest-neighbour
    sampling. *)
Lemma C1_resize_both_sides_witness :
  exists resized,
    Resize cv_nearest 256 false 1 (solid_image 300 600 [200; 100; 50]%Z) = Ok resized
    /\ shape resized = [256; 256; 3]
    /\ List.length (data resized) = 256 * 256 * 3
    /\ transform_fn cv_nearest (solid_image 300 600 [200; 100; 50]%Z)
       = (x <- CenterCrop cv_nearest 224 1 resized ;;
          x <- ToTensor x ;;
          Normalize mean std x)
    /\ (keeps_aspect_ratio (shape (solid_image 300 600 [200; 100; 50]%Z))
                           (shape resized) <-> 300 = 600).
Proof.
  apply (@C1_resize_both_sides cv_nearest
           (solid_image 300 600 [200; 100; 50]%Z) 300 600).
  - reflexivity.
  - lia.
  - lia.
Defined.

(** C1, as stated, fails: a 300 x 600 image comes out of the first step
    as 256 x 256, its proportions lost; with [keep_ratio=True] the same
    transform would have returned 256 x 512. *)
Lemma C1_aspect_ratio_counterexample :
  exists resized kept,
    Resize cv_nearest 256 false 1 (solid_image 300 600 [200; 100; 50]%Z) = Ok resized
    /\ shape resized = [256; 256; 3]
    /\ ~ keeps_aspect_ratio (shape (solid_image 300 600 [200; 100; 50]%Z))
                            (shape resized)
    /\ Resize cv_nearest 256 true 1 (solid_image 300 600 [200; 100; 50]%Z) = Ok kept
    /\ shape kept = [256; 512; 3]
    /\ shortest_side (shape kept) = 256
    /\ keeps_aspect_ratio (shape (solid_image 300 600 [200; 100; 50]%Z))
                          (shape kept).
Proof.
  eexists. eexists.
  split; [apply (@Resize_256 cv_nearest _ 300 600); [reflexivity | lia | lia]|].
  split; [reflexivity|].
  split; [cbn [shape solid_image keeps_aspect_ratio]; lia|].
  assert (E : 600 * 256 / 300 = 512) by (vm_compute; reflexivity).
  split.
  { unfold Resize. cbn [negb shape solid_image].
    change (600 <? 300) with false. cbv iota.
    change (300 =? 0) with false. cbv iota.
    rewrite E.
    apply (@imresize_ok cv_nearest _ 300 600 3); [reflexivity | lia ..]. }
  split; [reflexivity|].
  split; [reflexivity|].
  cbn [shape solid_image keeps_aspect_ratio]. lia.
Qed.

(** C3: for every decoded image with three colour channels whose
    shortest side is at least 256 pixels, [preprocess] returns a float32
    tensor of shape exactly (1, 3, 224, 224): the transforms produce a
    (3, 224, 224) tensor and the batch dimension is put in front of it
    last.  The tensor holds 3 * 224 * 224 values, all of them finite. *)
Theorem C3_preprocess_shape cv (img : NDArray Z) (h w : nat) :
  shape img = [h; w; 3] -> 256 <= shortest_side (shape img) ->
  exists t out,
    transform_fn cv img = Ok t
    /\ shape t = [3; 224; 224]
    /\ preprocess cv img = Ok out
    /\ expand_dims t 0 = Ok out
    /\ shape out = [1; 3; 224; 224]
    /\ wf out
    /\ Forall (fun v => is_finite v = true) (data out).
Proof.
  intros Hs Hmin. rewrite Hs in Hmin. cbn [shortest_side] in Hmin.
  assert (Hh : 0 < h) by lia. assert (Hw : 0 < w) by lia.
  destruct (preprocess_steps cv img Hs Hh Hw)
    as (r0 & c0 & t0 & t & _ & _ & _ & _ & _ & _ & _ & Et & Htf & Hx & HP).
  destruct (preprocess_elements cv img Hs Hh Hw)
    as (r1 & c1 & out & _ & _ & _ & _ & HP' & So & Lo & El & _).
  exists t, out.
  assert (Eo : expand_dims t 0 = Ok out) by congruence.
  split; [exact Htf|].
  split; [rewrite Et; exact eq_refl|].
  split; [exact HP'|].
  split; [exact Eo|].
  split; [exact So|].
  split.
  - unfold wf. rewrite So, Lo. cbn [numel fold_right]. lia.
  - unfold Float32.t in *. apply Forall_nth. intros k d Hk.
    rewrite (nth_indep _ d S754_nan) by exact Hk.
    rewrite Lo in Hk.
    destruct (El k Hk) as (p & Hp & ->).
    apply pixel_round_trip; [|exact Hp].
    apply Nat.Div0.div_lt_upper_bound. lia.
Qed.

(** A 300 x 600 image, both sides above 256. *)
Lemma C3_preprocess_shape_witness :
  exists t out,
    transform_fn cv_nearest (solid_image 300 600 [200; 100; 50]%Z) = Ok t
    /\ shape t = [3; 224; 224]
    /\ preprocess cv_nearest (solid_image 300 600 [200; 100; 50]%Z) = Ok out
    /\ expand_dims t 0 = Ok out
    /\ shape out = [1; 3; 224; 224]
    /\ wf out
    /\ Forall (fun v => is_finite v = true) (data out).
Proof.
  apply (@C3_preprocess_shape cv_nearest
           (solid_image 300 600 [200; 100; 50]%Z) 300 600).
  - reflexivity.
  - cbn [shape solid_image shortest_side]. lia.
Defined.

(** C4: every value of the tensor [preprocess] returns comes from one
    pixel [p] in 0..255 of the cropped image, channel [c] of position
    [(y, x)], by [(p / 255 - mean[c]) / std[c]] in float32: the pixel is
    first scaled to a float in [0, 1], then normalized with the mean
    (0.485, 0.456, 0.406) and the std (0.229, 0.224, 0.225) of its
    channel. *)
Theorem C4_scale_then_normalize cv (img : NDArray Z) (h w : nat) :
  shape img = [h; w; 3] -> 0 < h -> 0 < w ->
  exists resized crop out,
    Resize cv 256 false 1 img = Ok resized
    /\ CenterCrop cv 224 1 resized = Ok crop
    /\ preprocess cv img = Ok out
    /\ mean = [Float32.of_milli 485; Float32.of_milli 456; Float32.of_milli 406]
    /\ std = [Float32.of_milli 229; Float32.of_milli 224; Float32.of_milli 225]
    /\ forall c y x, c < 3 -> y < 224 -> x < 224 ->
         let p := hwc_at crop y x c in
         (0 <= p <= 255)%Z
         /\ in_unit_interval (Float32.div (Float32.of_Z p) (Float32.of_Z 255)) = true
         /\ nchw_at out 0 c y x
            = Float32.div
                (Float32.sub (Float32.div (Float32.of_Z p) (Float32.of_Z 255))
                             (nth c mean S754_nan))
                (nth c std S754_nan).
Proof.
  intros Hs Hh Hw.
  destruct (preprocess_elements cv img Hs Hh Hw)
    as (resized & crop & out & HR & _ & HC & _ & HP & _ & _ & _ & Pix).
  exists resized, crop, out.
  split; [exact HR|]. split; [exact HC|]. split; [exact HP|].
  split; [exact eq_refl|]. split; [exact eq_refl|].
  intros c y x Hc Hy Hx p.
  destruct (Pix c y x Hc Hy Hx) as (Hu & _ & Hv). fold p in Hu, Hv.
  destruct (@pixel_round_trip c p Hc Hu) as (Hunit & _ & _ & _).
  unfold is_uint8 in Hu. apply andb_prop in Hu. destruct Hu as [H0 H255].
  apply Z.leb_le in H0. apply Z.leb_le in H255.
  split; [lia|]. split; [exact Hunit|]. exact Hv.
Qed.

(** The values computed from a 300 x 600 image. *)
Lemma C4_scale_then_normalize_witness :
  exists resized crop out,
    Resize cv_nearest 256 false 1 (solid_image 300 600 [200; 100; 50]%Z) = Ok resized
    /\ CenterCrop cv_nearest 224 1 resized = Ok crop
    /\ preprocess cv_nearest (solid_image 300 600 [200; 100; 50]%Z) = Ok out
    /\ mean = [Float32.of_milli 485; Float32.of_milli 456; Float32.of_milli 406]
    /\ std = [Float32.of_milli 229; Float32.of_milli 224; Float32.of_milli 225]
    /\ forall c y x, c < 3 -> y < 224 -> x < 224 ->
         let p := hwc_at crop y x c in
         (0 <= p <= 255)%Z
         /\ in_unit_interval (Float32.div (Float32.of_Z p) (Float32.of_Z 255)) = true
         /\ nchw_at out 0 c y x
            = Float32.div
                (Float32.sub (Float32.div (Float32.of_Z p) (Float32.of_Z 255))
                             (nth c mean S754_nan))
                (nth c std S754_nan).
Proof.
  apply (@C4_scale_then_normalize cv_nearest
           (solid_image 300 600 [200; 100; 50]%Z) 300 600).
  - reflexivity.
  - lia.
  - lia.
Defined.

(** C6: normalization is inverted by [x * std[c] + mean[c]]: applied to
    any value of the tensor [preprocess] returns, in float32 or in
    float64, it gives back the centre-cropped pixel scaled to [0, 1] up
    to at most the machine epsilon [2 ^ (-23)] of float32. *)
Theorem C6_normalize_invertible cv (img : NDArray Z) (h w : nat) :
  shape img = [h; w; 3] -> 0 < h -> 0 < w ->
  exists resized crop out,
    Resize cv 256 false 1 img = Ok resized
    /\ CenterCrop cv 224 1 resized = Ok crop
    /\ preprocess cv img = Ok out
    /\ forall c y x, c < 3 -> y < 224 -> x < 224 ->
         within 23
           (Float32.add (Float32.mul (nchw_at out 0 c y x) (nth c std S754_nan))
                        (nth c mean S754_nan))
           (Float32.div (Float32.of_Z (hwc_at crop y x c)) (Float32.of_Z 255))
         = true
         /\ within 23
              (denormalized64 c (nchw_at out 0 c y x))
              (Float32.div (Float32.of_Z (hwc_at crop y x c)) (Float32.of_Z 255))
            = true.
Proof.
  intros Hs Hh Hw.
  destruct (preprocess_elements cv img Hs Hh Hw)
    as (resized & crop & out & HR & _ & HC & _ & HP & _ & _ & _ & Pix).
  exists resized, crop, out.
  split; [exact HR|]. split; [exact HC|]. split; [exact HP|].
  intros c y x Hc Hy Hx.
  destruct (Pix c y x Hc Hy Hx) as (Hu & _ & Hv).
  destruct (@pixel_round_trip c (hwc_at crop y x c) Hc Hu)
    as (_ & _ & Hclose & Hclose64).
  rewrite Hv. split; [exact Hclose | exact Hclose64].
Qed.

(** The inverse on the tensor of a 300 x 600 image. *)
Lemma C6_normalize_invertible_witness :
  exists resized crop out,
    Resize cv_nearest 256 false 1 (solid_image 300 600 [200; 100; 50]%Z) = Ok resized
    /\ CenterCrop cv_nearest 224 1 resized = Ok crop
    /\ preprocess cv_nearest (solid_image 300 600 [200; 100; 50]%Z) = Ok out
    /\ forall c y x, c < 3 -> y < 224 -> x < 224 ->
         within 23
           (Float32.add (Float32.mul (nchw_at out 0 c y x) (nth c std S754_nan))
                        (nth c mean S754_nan))
           (Float32.div (Float32.of_Z (hwc_at crop y x c)) (Float32.of_Z 255))
         = true
         /\ within 23
              (denormalized64 c (nchw_at out 0 c y x))
              (Float32.div (Float32.of_Z (hwc_at crop y x c)) (Float32.of_Z 255))
            = true.
Proof.
  apply (@C6_normalize_invertible cv_nearest
           (solid_image 300 600 [200; 100; 50]%Z) 300 600).
  - reflexivity.
  - lia.
  - lia.
Defined.

(** ** The label file *)

Lemma append_assoc (a b c : string) :
  ((a ++ b) ++ c = a ++ (b ++ c))%string.
Proof.
  induction a as [|x a IH]; simpl; [reflexivity | now rewrite IH].
Qed.

Lemma append_empty_r (a : string) : (a ++ "" = a)%string.
Proof.
  induction a as [|x a IH]; simpl; [reflexivity | now rewrite IH].
Qed.

Lemma single_line_cons (c : ascii) (l : string) :
  single_line (String c l) = true ->
  Ascii.eqb c LF = false /\ Ascii.eqb c CR = false /\ single_line l = true.
Proof.
  simpl. intros H.
  apply andb_prop in H. destruct H as [H Hl].
  apply andb_prop in H. destruct H as [Hlf Hcr].
  apply negb_true_iff in Hlf. apply negb_true_iff in Hcr. auto.
Qed.

Lemma universal_newlines_single (l : string) :
  single_line l = true -> universal_newlines l = l.
Proof.
  induction l as [|c l IH]; [reflexivity|].
  intros H. apply single_line_cons in H. destruct H as (_ & Hcr & Hl).
  cbn [universal_newlines]. rewrite Hcr. now rewrite IH.
Qed.

Lemma universal_newlines_line (l rest : string) :
  single_line l = true ->
  universal_newlines (l ++ String LF rest)
  = (l ++ String LF (universal_newlines rest))%string.
Proof.
  induction l as [|c l IH]; intros H.
  - reflexivity.
  - apply single_line_cons in H. destruct H as (_ & Hcr & Hl).
    cbn [append universal_newlines]. rewrite Hcr. now rewrite IH.
Qed.

Lemma iter_lines_line (l cur rest : string) :
  single_line l = true ->
  iter_lines cur (l ++ String LF rest)
  = (cur ++ l ++ String LF "")%string :: iter_lines "" rest.
Proof.
  revert cur. induction l as [|c l IH]; intros cur H.
  - reflexivity.
  - apply single_line_cons in H. destruct H as (Hlf & _ & Hl).
    cbn [append iter_lines]. rewrite Hlf. rewrite IH by exact Hl.
    now rewrite append_assoc.
Qed.

Lemma iter_lines_last (l cur : string) :
  single_line l = true ->
  iter_lines cur l
  = if String.eqb (cur ++ l) "" then [] else [(cur ++ l)%string].
Proof.
  revert cur. induction l as [|c l IH]; intros cur H.
  - cbn [iter_lines]. now rewrite append_empty_r.
  - apply single_line_cons in H. destruct H as (Hlf & _ & Hl).
    cbn [iter_lines]. rewrite Hlf. rewrite IH by exact Hl.
    now rewrite append_assoc.
Qed.

Lemma rstrip_trailing_space (l : string) (c : ascii) :
  isspace c = true -> rstrip (l ++ String c "") = rstrip l.
Proof.
  intros Hc. induction l as [|a l IH].
  - cbn [append rstrip]. now rewrite Hc.
  - cbn [append rstrip]. now rewrite IH.
Qed.

(** The lines read from a file written line by line, the last one
    possibly without its terminator. *)
Lemma file_lines_unlines (ls : list string) (last : string) :
  forallb single_line ls = true -> single_line last = true ->
  file_lines (unlines ls ++ last)
  = map (fun l => (l ++ String LF "")%string) ls
    ++ (if String.eqb last "" then [] else [last]).
Proof.
  unfold file_lines. intros Hls Hlast.
  induction ls as [|l ls IH].
  - cbn [unlines append map app].
    rewrite universal_newlines_single by exact Hlast.
    rewrite iter_lines_last by exact Hlast. reflexivity.
  - cbn [forallb] in Hls. apply andb_prop in Hls. destruct Hls as [Hl Hls].
    cbn [unlines map app]. rewrite append_assoc. cbn [append].
    rewrite universal_newlines_line by exact Hl.
    rewrite iter_lines_line by exact Hl. cbn [append].
    now rewrite (IH Hls).
Qed.



(** ** The notebook cells *)

(** C9: when the archive is written and uploaded, the storage URI that
    [upload_data] returns is the [model_data] of the [MXNetModel] the
    next cell constructs, and the model artifact location of the
    request [deploy] submits: nothing between the upload and the
    constructor changes it. *)
Theorem C9_artifact_reference_unchanged (Predictor : Type)
        (svc : Services Predictor) (e : Env Predictor) (uri r : string) :
  tar_gz svc "onnx_model.tar.gz" ["resnet152v1.onnx"] = Ok tt ->
  upload_data svc "onnx_model.tar.gz" "model" = Ok uri ->
  v_role e = Some r ->
  let o := run [cell_upload svc; @cell_model Predictor] e in
  raised o = None
  /\ v_model_data (env_after o) = Some uri
  /\ v_mxnet_model (env_after o)
     = Some {| model_data := uri; entry_point := "resnet152.py"; role := r;
               py_version := "py3"; framework_version := "1.4.1" |}
  /\ exists req,
       deploy_request (env_after o) = Ok req
       /\ model_data (model req) = uri
       /\ cell_deploy svc (env_after o)
          = quiet (env_after o)
              (p <- deploy svc req ;;
               Ok (mkEnv (v_role (env_after o)) (v_model_data (env_after o))
                         (v_mxnet_model (env_after o)) (Some p)
                         (v_img (env_after o)) (v_input_image (env_after o))
                         (v_scores (env_after o)) (v_labels (env_after o))
                         (v_a (env_after o)))).
Proof.
  intros Htar Hup Hrole o. subst o.
  unfold run, cell_upload, cell_model, cell_deploy, deploy_request.
  rewrite Htar, Hup. cbn [bind quiet raised env_after stdout v_model_data v_role lookup].
  rewrite Hrole.
  cbn [bind quiet raised env_after stdout v_model_data v_role v_mxnet_model lookup].
  split; [reflexivity|]. split; [reflexivity|]. split; [reflexivity|].
  eexists. split; [reflexivity|]. split; reflexivity.
Qed.

(** The stub upload answers [s3://bucket/model/onnx_model.tar.gz]. *)
Lemma C9_artifact_reference_unchanged_witness :
  let o := run [cell_upload stub_services; @cell_model unit] stale_env in
  raised o = None
  /\ v_model_data (env_after o) = Some "s3://bucket/model/onnx_model.tar.gz"
  /\ v_mxnet_model (env_after o)
     = Some {| model_data := "s3://bucket/model/onnx_model.tar.gz";
               entry_point := "resnet152.py"; role := "role";
               py_version := "py3"; framework_version := "1.4.1" |}
  /\ exists req,
       deploy_request (env_after o) = Ok req
       /\ model_data (model req) = "s3://bucket/model/onnx_model.tar.gz"
       /\ cell_deploy stub_services (env_after o)
          = quiet (env_after o)
              (p <- deploy stub_services req ;;
               Ok (mkEnv (v_role (env_after o)) (v_model_data (env_after o))
                         (v_mxnet_model (env_after o)) (Some p)
                         (v_img (env_after o)) (v_input_image (env_after o))
                         (v_scores (env_after o)) (v_labels (env_after o))
                         (v_a (env_after o)))).
Proof.
  apply (@C9_artifact_reference_unchanged unit stub_services stale_env
           "s3://bucket/model/onnx_model.tar.gz" "role").
  - reflexivity.
  - reflexivity.
  - reflexivity.
Defined.

Lemma run_cons (Predictor : Type)
      (c : Env Predictor -> Outcome Predictor)
      (rest : list (Env Predictor -> Outcome Predictor)) (e : Env Predictor) :
  run (c :: rest) e
  = match raised (c e) with
    | Some _ => c e
    | None =>
        {| env_after := env_after (run rest (env_after (c e)));
           stdout := stdout (c e) ++ stdout (run rest (env_after (c e)));
           raised := raised (run rest (env_after (c e))) |}
    end.
Proof.
  reflexivity.
Qed.

(** The preprocessing cell reads [img] only. *)
Lemma cell_preprocess_agree (Predictor : Type) (svc : Services Predictor)
      (e1 e2 : Env Predictor) :
  v_img e1 = v_img e2 ->
  v_predictor e1 = v_predictor e2 ->
  stdout (cell_preprocess svc e1) = stdout (cell_preprocess svc e2)
  /\ raised (cell_preprocess svc e1) = raised (cell_preprocess svc e2)
  /\ (raised (cell_preprocess svc e1) = None ->
      v_predictor (env_after (cell_preprocess svc e1))
      = v_predictor (env_after (cell_preprocess svc e2))
      /\ v_input_image (env_after (cell_preprocess svc e1))
         = v_input_image (env_after (cell_preprocess svc e2))).
Proof.
  intros Himg Hpred. unfold cell_preprocess. rewrite <- Himg.
  destruct (v_img e1) as [img|]; cbn [lookup bind quiet stdout raised env_after].
  - destruct (preprocess (cv_resize svc) img) as [x|ex];
      cbn [bind quiet stdout raised env_after v_predictor v_input_image].
    + auto.
    + repeat split; congruence.
  - repeat split; congruence.
Qed.

(** The prediction cell reads [predictor] and [input_image] only. *)
Lemma cell_predict_agree (Predictor : Type) (svc : Services Predictor)
      (e1 e2 : Env Predictor) :
  v_predictor e1 = v_predictor e2 ->
  v_input_image e1 = v_input_image e2 ->
  stdout (cell_predict svc e1) = stdout (cell_predict svc e2)
  /\ raised (cell_predict svc e1) = raised (cell_predict svc e2)
  /\ (raised (cell_predict svc e1) = None ->
      v_input_image (env_after (cell_predict svc e1))
      = v_input_image (env_after (cell_predict svc e2))
      /\ v_scores (env_after (cell_predict svc e1))
         = v_scores (env_after (cell_predict svc e2))).
Proof.
  intros Hpred Hx. unfold cell_predict. rewrite <- Hpred, <- Hx.
  destruct (v_predictor e1) as [p|]; cbn [lookup bind quiet stdout raised env_after].
  - destruct (v_input_image e1) as [x|];
      cbn [lookup bind quiet stdout raised env_after].
    + destruct (predict svc p x) as [s|ex];
        cbn [bind quiet stdout raised env_after v_input_image v_scores].
      * auto.
      * repeat split; congruence.
    + repeat split; congruence.
  - repeat split; congruence.
Qed.

(** The ranking cell reads [scores] and the label file only. *)
Lemma cell_rank_agree (Predictor : Type) (svc : Services Predictor)
      (e1 e2 : Env Predictor) :
  v_input_image e1 = v_input_image e2 ->
  v_scores e1 = v_scores e2 ->
  stdout (cell_rank svc e1) = stdout (cell_rank svc e2)
  /\ raised (cell_rank svc e1) = raised (cell_rank svc e2)
  /\ (raised (cell_rank svc e1) = None ->
      v_input_image (env_after (cell_rank svc e1))
      = v_input_image (env_after (cell_rank svc e2))
      /\ v_scores (env_after (cell_rank svc e1))
         = v_scores (env_after (cell_rank svc e2))
      /\ v_labels (env_after (cell_rank svc e1))
         = v_labels (env_after (cell_rank svc e2))
      /\ v_a (env_after (cell_rank svc e1))
         = v_a (env_after (cell_rank svc e2))).
Proof.
  intros Hx Hs. unfold cell_rank. rewrite <- Hs.
  destruct (download svc _) as [f|ex]; cbn [bind].
  - destruct (open_text svc _) as [contents|ex];
      cbn [stdout raised env_after].
    + destruct (v_scores e1) as [s|]; cbn [lookup stdout raised env_after].
      * destruct (print_top (load_labels contents) s (firstn 5 (rev (argsort s))))
          as [out ex].
        cbn [stdout raised env_after v_input_image v_scores v_labels v_a].
        repeat split; auto.
      * repeat split; congruence.
    + repeat split; congruence.
  - cbn [stdout raised env_after]. repeat split; congruence.
Qed.

(** C8: running the preprocessing cell, the prediction cell and the
    ranking cell prints the same lines and ends the same way in any two
    kernels that hold the same image and the same endpoint, whatever
    their other variables hold: with the classifier and the label file
    fixed, the top-5 output is a function of the image alone.  When the
    run succeeds the variables it assigns agree as well. *)
Theorem C8_pipeline_deterministic (Predictor : Type)
        (svc : Services Predictor) (e1 e2 : Env Predictor) :
  v_img e1 = v_img e2 ->
  v_predictor e1 = v_predictor e2 ->
  let cells := [cell_preprocess svc; cell_predict svc; cell_rank svc] in
  let o1 := run cells e1 in
  let o2 := run cells e2 in
  stdout o1 = stdout o2
  /\ raised o1 = raised o2
  /\ (raised o1 = None ->
      v_input_image (env_after o1) = v_input_image (env_after o2)
      /\ v_scores (env_after o1) = v_scores (env_after o2)
      /\ v_labels (env_after o1) = v_labels (env_after o2)
      /\ v_a (env_after o1) = v_a (env_after o2)).
Proof.
  intros Himg Hpred cells o1 o2. subst o1 o2 cells.
  destruct (cell_preprocess_agree svc e1 e2 Himg Hpred) as (S1 & R1 & K1).
  rewrite (run_cons _ _ e1), (run_cons _ _ e2).
  generalize dependent (cell_preprocess svc e2).
  generalize dependent (cell_preprocess svc e1).
  intros a1 a2 S1 R1 K1. rewrite <- R1.
  destruct (raised a1) as [ex|] eqn:E1.
  { repeat split; congruence. }
  destruct (K1 eq_refl) as (Kp & Kx).
  destruct (cell_predict_agree svc (env_after a1) (env_after a2) Kp Kx)
    as (S2 & R2 & K2).
  rewrite (run_cons _ _ (env_after a1)), (run_cons _ _ (env_after a2)).
  generalize dependent (cell_predict svc (env_after a2)).
  generalize dependent (cell_predict svc (env_after a1)).
  intros b1 b2 S2 R2 K2. rewrite <- R2.
  destruct (raised b1) as [ex|] eqn:E2.
  { cbn [stdout raised env_after]. rewrite S1, S2. repeat split; congruence. }
  destruct (K2 eq_refl) as (Kx2 & Ks).
  destruct (cell_rank_agree svc (env_after b1) (env_after b2) Kx2 Ks)
    as (S3 & R3 & K3).
  rewrite (run_cons _ _ (env_after b1)), (run_cons _ _ (env_after b2)).
  generalize dependent (cell_rank svc (env_after b2)).
  generalize dependent (cell_rank svc (env_after b1)).
  intros c1 c2 S3 R3 K3. rewrite <- R3.
  destruct (raised c1) as [ex|] eqn:E3.
  { cbn [stdout raised env_after]. rewrite S1, S2, S3.
    repeat split; congruence. }
  cbn [run stdout raised env_after]. rewrite S1, S2, S3.
  split; [reflexivity|]. split; [reflexivity|].
  intros _. apply K3. reflexivity.
Qed.

(** A kernel with stale [scores], [labels] and [a] against a fresh one. *)
Lemma C8_pipeline_deterministic_witness :
  let cells := [cell_preprocess stub_services; cell_predict stub_services;
                cell_rank stub_services] in
  let o1 := run cells stale_env in
  let o2 := run cells fresh_env in
  stdout o1 = stdout o2
  /\ raised o1 = raised o2
  /\ (raised o1 = None ->
      v_input_image (env_after o1) = v_input_image (env_after o2)
      /\ v_scores (env_after o1) = v_scores (env_after o2)
      /\ v_labels (env_after o1) = v_labels (env_after o2)
      /\ v_a (env_after o1) = v_a (env_after o2)).
Proof.
  apply (@C8_pipeline_deterministic unit stub_services stale_env fresh_env).
  - reflexivity.
  - reflexivity.
Defined.

(** The end-to-end scenario: a 256 x 256 image of one colour, the
    classifier that answers [scores6], six labels.  From an empty kernel
    the cells print the five lines below. *)
Example end_to_end_scenario :
  let o := run [cell_image stub_services; cell_preprocess stub_services;
                cell_deploy stub_services]
               empty_env in
  raised o = Some NameError
  /\ let o := run [cell_role stub_services; cell_download_model stub_services;
                   cell_upload stub_services; @cell_model unit;
                   cell_deploy stub_services; cell_image stub_services;
                   cell_preprocess stub_services; cell_predict stub_services;
                   cell_rank stub_services; cell_delete stub_services]
                  empty_env in
     raised o = None
     /\ stdout o = ["class=class1 ; probability=0.900000";
                    "class=class0 ; probability=0.100000";
                    "class=class2 ; probability=0.050000";
                    "class=class5 ; probability=0.020000";
                    "class=class3 ; probability=0.020000"].
Proof.
  split; [|split]; lazy; reflexivity.
Qed.

(** * Further properties *)

(** ** The order of the ranking *)

Lemma np_lt_key (a b : Float64.t) :
  Float64.np_lt a b = key_ltb (sort_key a) (sort_key b).
Proof.
  unfold Float64.np_lt, Float64.ltb, SFltb, Float64.is_nan.
  destruct a as [sa|sa| |sa ma ea], b as [sb|sb| |sb mb eb];
    try destruct sa; try destruct sb; try reflexivity;
    cbn [SFcompare sort_key key_ltb].
  - change (PosDef.Pos.compare_cont Eq ma mb) with (Pos.compare ma mb).
    destruct (Z.compare_spec ea eb); destruct (Pos.compare_spec ma mb);
      cbn [CompOpp orb andb negb];
      repeat match goal with
             | |- context [(?x <? ?y)%Z] => destruct (Z.ltb_spec x y)
             | |- context [(?x =? ?y)%Z] => destruct (Z.eqb_spec x y)
             end; cbn [orb andb]; try reflexivity; lia.
  - change (PosDef.Pos.compare_cont Eq ma mb) with (Pos.compare ma mb).
    destruct (Z.compare_spec ea eb); destruct (Pos.compare_spec ma mb);
      cbn [CompOpp orb andb negb];
      repeat match goal with
             | |- context [(?x <? ?y)%Z] => destruct (Z.ltb_spec x y)
             | |- context [(?x =? ?y)%Z] => destruct (Z.eqb_spec x y)
             end; cbn [orb andb]; try reflexivity; lia.
Qed.

Lemma np_lt_asym (a b : Float64.t) :
  Float64.np_lt a b = true -> Float64.np_lt b a = false.
Proof.
  rewrite !np_lt_key.
  destruct (sort_key a) as [[a1 a2] a3], (sort_key b) as [[b1 b2] b3].
  unfold key_ltb. intros H. apply not_true_is_false. intros H'.
  rewrite ?orb_true_iff, ?andb_true_iff, ?Z.ltb_lt, ?Z.eqb_eq in H, H'. lia.
Qed.

Lemma np_ge_trans (a b c : Float64.t) :
  Float64.np_lt a b = false -> Float64.np_lt b c = false ->
  Float64.np_lt a c = false.
Proof.
  rewrite !np_lt_key.
  destruct (sort_key a) as [[a1 a2] a3], (sort_key b) as [[b1 b2] b3],
           (sort_key c) as [[c1 c2] c3].
  unfold key_ltb. intros H1 H2. apply not_true_is_false. intros H3.
  apply not_true_iff_false in H1. apply not_true_iff_false in H2.
  rewrite ?orb_true_iff, ?andb_true_iff, ?Z.ltb_lt, ?Z.eqb_eq in H1, H2, H3. lia.
Qed.

Lemma np_lt_ge_trans (a b c : Float64.t) :
  Float64.np_lt b a = true -> Float64.np_lt b c = false ->
  Float64.np_lt c a = true.
Proof.
  rewrite !np_lt_key.
  destruct (sort_key a) as [[a1 a2] a3], (sort_key b) as [[b1 b2] b3],
           (sort_key c) as [[c1 c2] c3].
  unfold key_ltb. intros H1 H2.
  apply not_true_iff_false in H2.
  rewrite ?orb_true_iff, ?andb_true_iff, ?Z.ltb_lt, ?Z.eqb_eq in *. lia.
Qed.

Lemma outranks_not_less (v : list Float64.t) (x y : nat) :
  outranks v x y -> Float64.np_lt (score_at v x) (score_at v y) = false.
Proof.
  intros [H|[H _]]; [now apply np_lt_asym | exact H].
Qed.

Lemma outranks_trans (v : list Float64.t) (x y z : nat) :
  outranks v x y -> outranks v y z -> outranks v x z.
Proof.
  unfold outranks. rewrite !np_lt_key.
  destruct (sort_key (score_at v x)) as [[x1 x2] x3],
           (sort_key (score_at v y)) as [[y1 y2] y3],
           (sort_key (score_at v z)) as [[z1 z2] z3].
  unfold key_ltb.
  rewrite <- !not_true_iff_false.
  rewrite ?orb_true_iff, ?andb_true_iff, ?Z.ltb_lt, ?Z.eqb_eq.
  intros H1 H2. lia.
Qed.

Lemma insert_index_sorted (v : list Float64.t) (vi : nat) (sorted : list nat) :
  StronglySorted (outranks v) sorted ->
  Forall (fun k => k < vi) sorted ->
  StronglySorted (outranks v) (insert_index v vi sorted).
Proof.
  induction sorted as [|k rest IH]; intros S B; cbn [insert_index].
  - constructor; constructor.
  - apply StronglySorted_inv in S. destruct S as [Sr Fk].
    inversion B as [|? ? Bk Br]; subst.
    destruct (Float64.np_lt (score_at v vi) (score_at v k)) eqn:E.
    + constructor; [now apply IH|].
      apply (Permutation_Forall (Permutation_sym (insert_index_perm v vi rest))).
      constructor; [left; exact E | exact Fk].
    + constructor; [constructor; assumption|].
      assert (Hk : outranks v vi k) by (right; split; assumption).
      constructor; [exact Hk|].
      rewrite Forall_forall in Fk |- *. intros y Hy.
      apply (outranks_trans Hk). now apply Fk.
Qed.

Lemma fold_insert_sorted (v : list Float64.t) (len start : nat) (sorted : list nat) :
  StronglySorted (outranks v) sorted ->
  Forall (fun k => k < start) sorted ->
  StronglySorted (outranks v)
    (fold_left (fun s vi => insert_index v vi s) (seq start len) sorted).
Proof.
  revert start sorted. induction len as [|len IH]; intros start sorted S B.
  - exact S.
  - cbn [seq fold_left]. apply IH.
    + now apply insert_index_sorted.
    + apply (Permutation_Forall (Permutation_sym (insert_index_perm v start sorted))).
      constructor; [lia|].
      rewrite Forall_forall in B |- *. intros k Hk. specialize (B k Hk). lia.
Qed.

Lemma reversed_argsort_sorted (v : list Float64.t) :
  StronglySorted (outranks v) (rev (argsort v)).
Proof.
  unfold argsort. rewrite rev_involutive.
  apply fold_insert_sorted; constructor.
Qed.

Lemma StronglySorted_app_cross (A : Type) (R : A -> A -> Prop) (l1 l2 : list A) :
  StronglySorted R (l1 ++ l2) ->
  StronglySorted R l1
  /\ forall x y, In x l1 -> In y l2 -> R x y.
Proof.
  induction l1 as [|a l1 IH]; cbn [app]; intros S.
  - split; [constructor | intros x y []].
  - apply StronglySorted_inv in S. destruct S as [S F].
    destruct (IH S) as [S1 C]. rewrite Forall_app in F. destruct F as [F1 F2].
    split; [now constructor|].
    intros x y [<-|Hx] Hy.
    + rewrite Forall_forall in F2. now apply F2.
    + now apply C.
Qed.

(** The printed order, on the pairs the loop prints. *)
Lemma print_top_prefix (labels : list string) (scores : list Float64.t)
      (idx : list nat) :
  exists k,
    k <= List.length idx
    /\ fst (print_top labels scores idx)
       = map (fun i => (nth i labels "", score_at scores i)) (firstn k idx)
    /\ (snd (print_top labels scores idx) = None -> k = List.length idx)
    /\ (snd (print_top labels scores idx) <> None ->
        snd (print_top labels scores idx) = Some IndexError
        /\ k < List.length idx
        /\ (List.length labels <= nth k idx 0
            \/ List.length scores <= nth k idx 0))
    /\ Forall (fun i => i < List.length labels) (firstn k idx).
Proof.
  induction idx as [|i rest IH]; cbn [print_top].
  - exists 0. cbn. repeat split; try lia; try congruence. constructor.
  - destruct (nth_error labels i) as [l|] eqn:El.
    + destruct (nth_error scores i) as [s|] eqn:Es.
      * destruct IH as (k & Hk & Hout & Hok & Hbad & Hlab).
        destruct (print_top labels scores rest) as [out e].
        cbn [fst snd] in *. exists (S k). cbn [firstn map List.length nth].
        split; [lia|]. split.
        { rewrite Hout. f_equal. f_equal.
          - symmetry. now apply nth_error_nth.
          - symmetry. now apply nth_error_nth. }
        split.
        { intros He. f_equal. now apply Hok. }
        split.
        { intros He. destruct (Hbad He) as (H1 & H2 & H3).
          split; [exact H1|]. split; [lia | exact H3]. }
        constructor; [|exact Hlab].
        apply nth_error_Some. congruence.
      * exists 0. cbn [fst snd firstn map List.length nth].
        split; [lia|]. split; [reflexivity|].
        split; [discriminate|]. split; [|constructor]. intros _.
        split; [reflexivity|]. split; [lia|].
        right. now apply nth_error_None.
    + exists 0. cbn [fst snd firstn map List.length nth].
      split; [lia|]. split; [reflexivity|].
      split; [discriminate|]. split; [|constructor]. intros _.
      split; [reflexivity|]. split; [lia|].
      left. now apply nth_error_None.
Qed.

(** X6: the scores are printed in non-increasing order: no printed score
    is less than one printed after it, in the order of the sort (NaN
    greatest) and so also by [<]. *)
Theorem rank_prints_descending (labels : list string) (scores : list Float64.t) :
  StronglySorted (fun s t => Float64.np_lt s t = false /\ Float64.ltb s t = false)
                 (map snd (fst (rank labels scores))).
Proof.
  unfold rank.
  destruct (print_top_prefix labels scores (top5 scores)) as (k & _ & -> & _).
  rewrite map_map. cbn [snd].
  assert (S : StronglySorted (outranks scores) (firstn k (top5 scores))).
  { pose proof (reversed_argsort_sorted scores) as S.
    unfold top5. rewrite <- (firstn_skipn 5 (rev (argsort scores))) in S.
    apply StronglySorted_app_cross in S. destruct S as [S _].
    rewrite <- (firstn_skipn k (firstn 5 (rev (argsort scores)))) in S.
    apply StronglySorted_app_cross in S. now destruct S as [S _]. }
  induction S as [|i l S IH F]; cbn [map]; constructor; [exact IH|].
  rewrite Forall_forall in F. apply Forall_forall. intros t Ht.
  apply in_map_iff in Ht. destruct Ht as (j & <- & Hj).
  pose proof (outranks_not_less (F j Hj)) as Hn.
  split; [exact Hn|].
  unfold Float64.np_lt in Hn. apply orb_false_iff in Hn. now destruct Hn.
Qed.

(** X7: the selected indices hold the greatest scores: no score that is
    left out is greater than one that is selected. *)
Theorem top5_are_the_largest (scores : list Float64.t) (i j : nat) :
  In i (top5 scores) -> j < List.length scores -> ~ In j (top5 scores) ->
  Float64.np_lt (score_at scores i) (score_at scores j) = false.
Proof.
  intros Hi Hj Hn.
  pose proof (reversed_argsort_sorted scores) as S.
  rewrite <- (firstn_skipn 5 (rev (argsort scores))) in S.
  apply StronglySorted_app_cross in S. destruct S as [_ C].
  apply outranks_not_less. apply C; [exact Hi|].
  assert (Hin : In j (rev (argsort scores))).
  { apply in_rev. rewrite rev_involutive.
    apply (Permutation_in _ (Permutation_sym (argsort_perm scores))).
    apply in_seq. lia. }
  rewrite <- (firstn_skipn 5 (rev (argsort scores))) in Hin.
  apply in_app_or in Hin. destruct Hin as [Hin|Hin]; [|exact Hin].
  exfalso. now apply Hn.
Qed.

(** X8: a NaN among the scores is ranked first: the ascending sort puts
    NaN last and the reversal brings it to the front. *)
Theorem nan_score_ranks_first (scores : list Float64.t) (j : nat) :
  j < List.length scores ->
  Float64.is_nan (score_at scores j) = true ->
  exists i rest,
    top5 scores = i :: rest
    /\ Float64.is_nan (score_at scores i) = true.
Proof.
  intros Hj Hnan.
  pose proof (reversed_argsort_sorted scores) as S.
  assert (Hin : In j (rev (argsort scores))).
  { apply in_rev. rewrite rev_involutive.
    apply (Permutation_in _ (Permutation_sym (argsort_perm scores))).
    apply in_seq. lia. }
  unfold top5.
  destruct (rev (argsort scores)) as [|i l]; [destruct Hin|].
  exists i, (firstn 4 l). split; [reflexivity|].
  destruct Hin as [->|Hin]; [exact Hnan|].
  apply StronglySorted_inv in S. destruct S as [_ F].
  rewrite Forall_forall in F.
  pose proof (outranks_not_less (F j Hin)) as Hn.
  unfold Float64.np_lt in Hn. apply orb_false_iff in Hn. destruct Hn as [_ Hn].
  rewrite Hnan in Hn. cbn [andb] in Hn. now apply negb_false_iff in Hn.
Qed.


(** X10: the ranker raises nothing but [IndexError], and raises it exactly
    when one of the selected indices has no label. *)
Theorem rank_raises_only_for_missing_label (labels : list string)
        (scores : list Float64.t) :
  (snd (rank labels scores) = None \/ snd (rank labels scores) = Some IndexError)
  /\ (snd (rank labels scores) = Some IndexError
      <-> exists i, In i (top5 scores) /\ List.length labels <= i).
Proof.
  split; [|apply rank_raises_iff].
  unfold rank.
  destruct (print_top_prefix labels scores (top5 scores))
    as (k & _ & _ & _ & Hbad & _).
  destruct (snd (print_top labels scores (top5 scores))) as [e|]; [|now left].
  right. apply Hbad. discriminate.
Qed.

(** X11: with a label for every score the ranker prints [min 5 n] lines,
    the pairs [(labels[i], scores[i])] of the selected indices. *)
Theorem rank_with_enough_labels (labels : list string) (scores : list Float64.t) :
  List.length scores <= List.length labels ->
  rank labels scores
  = (map (fun i => (nth i labels "", score_at scores i)) (top5 scores), None)
  /\ List.length (fst (rank labels scores)) = Nat.min 5 (List.length scores).
Proof.
  intros Hlen.
  assert (E : rank labels scores
              = (map (fun i => (nth i labels "", score_at scores i)) (top5 scores),
                 None)).
  { unfold rank. apply print_top_total. intros i Hi.
    pose proof (@top5_in_range scores i Hi). lia. }
  split; [exact E|].
  rewrite E. cbn [fst]. rewrite length_map. apply top5_length.
Qed.

(** X12: when the ranker raises, it has printed the pairs of the selected
    indices that come before the first one without a label. *)
Theorem rank_prints_until_missing_label (labels : list string)
        (scores : list Float64.t) :
  snd (rank labels scores) = Some IndexError ->
  exists k,
    k < List.length (top5 scores)
    /\ List.length labels <= nth k (top5 scores) 0
    /\ (forall i, In i (firstn k (top5 scores)) -> i < List.length labels)
    /\ fst (rank labels scores)
       = map (fun i => (nth i labels "", score_at scores i))
             (firstn k (top5 scores)).
Proof.
  unfold rank. intros Herr.
  destruct (print_top_prefix labels scores (top5 scores))
    as (k & Hk & Hout & _ & Hbad & Hlab).
  destruct Hbad as (_ & Hlt & Hmiss); [congruence|].
  exists k. split; [exact Hlt|]. split.
  - destruct Hmiss as [H|H]; [exact H|].
    assert (Hin : In (nth k (top5 scores) 0) (top5 scores)) by now apply nth_In.
    pose proof (@top5_in_range scores _ Hin). lia.
  - split; [|exact Hout].
    rewrite Forall_forall in Hlab. exact Hlab.
Qed.

(** Index 1 is selected and index 4, the smallest score, is not. *)
Lemma top5_are_the_largest_witness :
  Float64.np_lt (score_at scores6 1) (score_at scores6 4) = false.
Proof.
  apply (@top5_are_the_largest scores6 1 4).
  - vm_compute. left. reflexivity.
  - vm_compute. lia.
  - vm_compute. intuition discriminate.
Defined.

(** The scores [0.1, nan, 0.9]. *)
Lemma nan_score_ranks_first_witness :
  exists i rest,
    top5 [Float64.of_centi 10; S754_nan; Float64.of_centi 90] = i :: rest
    /\ Float64.is_nan
         (score_at [Float64.of_centi 10; S754_nan; Float64.of_centi 90] i) = true.
Proof.
  apply (@nan_score_ranks_first
           [Float64.of_centi 10; S754_nan; Float64.of_centi 90] 1).
  - cbn [List.length]. lia.
  - reflexivity.
Defined.


(** Six labels for six scores. *)
Lemma rank_with_enough_labels_witness :
  rank labels6 scores6
  = (map (fun i => (nth i labels6 "", score_at scores6 i)) (top5 scores6), None)
  /\ List.length (fst (rank labels6 scores6)) = Nat.min 5 (List.length scores6).
Proof.
  apply (@rank_with_enough_labels labels6 scores6).
  vm_compute. lia.
Defined.

(** Two labels for three scores. *)
Lemma rank_prints_until_missing_label_witness :
  exists k,
    k < List.length (top5 (map Float64.of_centi [10; 90; 5]%Z))
    /\ List.length ["class0"; "class1"]
       <= nth k (top5 (map Float64.of_centi [10; 90; 5]%Z)) 0
    /\ (forall i, In i (firstn k (top5 (map Float64.of_centi [10; 90; 5]%Z))) ->
                  i < List.length ["class0"; "class1"])
    /\ fst (rank ["class0"; "class1"] (map Float64.of_centi [10; 90; 5]%Z))
       = map (fun i => (nth i ["class0"; "class1"] "",
                        score_at (map Float64.of_centi [10; 90; 5]%Z) i))
             (firstn k (top5 (map Float64.of_centi [10; 90; 5]%Z))).
Proof.
  apply (@rank_prints_until_missing_label
           ["class0"; "class1"] (map Float64.of_centi [10; 90; 5]%Z)).
  reflexivity.
Defined.

(** ** Stripping and line ends *)

Lemma rstrip_decompose (s : string) :
  exists t, s = (rstrip s ++ t)%string /\ all_space t = true.
Proof.
  induction s as [|c r IH]; [exists ""; split; reflexivity|].
  destruct IH as (t & Hr & Ht). cbn [rstrip].
  destruct (rstrip r) as [|d r'] eqn:E.
  - cbn [append] in Hr. subst t.
    destruct (isspace c) eqn:Ec.
    + exists (String c r). cbn [append all_space]. rewrite Ec, Ht. now split.
    + exists r. cbn [append]. now split.
  - exists t. cbn [append]. rewrite Hr at 1. now split.
Qed.

Lemma rstrip_no_trailing_space (s : string) :
  ends_with_space (rstrip s) = false.
Proof.
  induction s as [|c r IH]; [reflexivity|]. cbn [rstrip].
  destruct (rstrip r) as [|d r'] eqn:Er.
  - destruct (isspace c) eqn:Ec; [reflexivity|]. cbn [ends_with_space]. exact Ec.
  - cbn [ends_with_space] in IH |- *. exact IH.
Qed.

Lemma rstrip_fixed (s : string) :
  ends_with_space s = false -> rstrip s = s.
Proof.
  induction s as [|c r IH]; [reflexivity|]. intros E.
  cbn [rstrip]. destruct r as [|d r'].
  - cbn [ends_with_space] in E. cbn [rstrip]. now rewrite E.
  - cbn [ends_with_space] in E. rewrite (IH E). reflexivity.
Qed.

(** X13: [rstrip] removes a suffix of whitespace and nothing else, and
    what is left does not end with whitespace. *)
Theorem rstrip_removes_trailing_space (s : string) :
  (exists t, s = (rstrip s ++ t)%string /\ all_space t = true)
  /\ ends_with_space (rstrip s) = false
  /\ rstrip (rstrip s) = rstrip s.
Proof.
  split; [apply rstrip_decompose|].
  split; [apply rstrip_no_trailing_space|].
  apply rstrip_fixed, rstrip_no_trailing_space.
Qed.

Lemma single_line_app (a b : string) :
  single_line (a ++ b) = single_line a && single_line b.
Proof.
  induction a as [|c a IH]; [reflexivity|].
  cbn [append single_line]. rewrite IH. now rewrite andb_assoc.
Qed.

Lemma universal_newlines_free_of_cr (s : string) :
  free_of CR (universal_newlines s) = true.
Proof.
  assert (H : forall n s, String.length s <= n ->
                          free_of CR (universal_newlines s) = true).
  { clear s. induction n as [|n IH]; intros [|c rest] Hn; try reflexivity.
    - cbn [String.length] in Hn. lia.
    - cbn [String.length] in Hn. cbn [universal_newlines].
      destruct (Ascii.eqb c CR) eqn:Ec.
      + destruct rest as [|d rest']; [reflexivity|].
        cbn [String.length] in Hn.
        destruct (Ascii.eqb d LF); cbn [free_of]; apply IH;
          cbn [String.length]; lia.
      + cbn [free_of]. rewrite Ec. apply IH. lia. }
  apply (H (String.length s)). lia.
Qed.

(** The lines a text without ["\r"] is split into. *)
Lemma iter_lines_single (s cur : string) :
  free_of CR s = true -> single_line cur = true ->
  Forall (fun l => single_line l = true
                   \/ exists body, l = (body ++ String LF "")%string
                                    /\ single_line body = true)
         (iter_lines cur s).
Proof.
  revert cur. induction s as [|c rest IH]; intros cur Hs Hcur.
  - cbn [iter_lines]. destruct (String.eqb cur ""); constructor; auto.
  - cbn [free_of] in Hs. apply andb_prop in Hs. destruct Hs as [Hc Hs].
    apply negb_true_iff in Hc.
    cbn [iter_lines]. destruct (Ascii.eqb c LF) eqn:El.
    + constructor; [right; now exists cur|].
      now apply IH.
    + apply IH; [exact Hs|].
      rewrite single_line_app, Hcur. cbn [single_line]. now rewrite El, Hc.
Qed.

(** X14: whatever the file holds, every label is one line of text without
    a line end in it and without whitespace at its end. *)
Theorem labels_are_stripped_lines (contents : string) :
  Forall (fun l => single_line l = true /\ ends_with_space l = false)
         (load_labels contents).
Proof.
  unfold load_labels, file_lines.
  pose proof (iter_lines_single (universal_newlines contents) ""
                (universal_newlines_free_of_cr contents) eq_refl) as F.
  rewrite Forall_forall in F. apply Forall_forall. intros l Hl.
  apply in_map_iff in Hl. destruct Hl as (line & <- & Hin).
  split; [|apply rstrip_no_trailing_space].
  assert (P : forall b, single_line b = true -> single_line (rstrip b) = true).
  { intros b Hb. destruct (rstrip_decompose b) as (t & E & _).
    rewrite E, single_line_app in Hb. apply andb_prop in Hb. tauto. }
  destruct (F line Hin) as [H|(body & -> & H)].
  - now apply P.
  - rewrite rstrip_trailing_space by reflexivity. now apply P.
Qed.

Lemma universal_newlines_eol (l rest : string) :
  single_line l = true ->
  (forall d rest', rest = String d rest' -> Ascii.eqb d LF = false) ->
  universal_newlines (l ++ String CR (String LF rest))
  = (l ++ String LF (universal_newlines rest))%string
  /\ universal_newlines (l ++ String CR rest)
     = (l ++ String LF (universal_newlines rest))%string.
Proof.
  intros Hl Hrest. induction l as [|c l IH].
  - cbn [append universal_newlines]. split; [reflexivity|].
    change (Ascii.eqb CR CR) with true. cbv iota.
    destruct rest as [|d rest']; [reflexivity|].
    now rewrite (Hrest d rest' eq_refl).
  - apply single_line_cons in Hl. destruct Hl as (_ & Hcr & Hl).
    destruct (IH Hl) as [E1 E2].
    cbn [append universal_newlines]. rewrite Hcr, E1, E2. now split.
Qed.

Lemma unlines_with_head (eol : string) (ls : list string) (d e : ascii) (rest' : string) :
  forallb single_line ls = true ->
  eol = String e "" \/ (exists e', eol = String e (String e' "")) ->
  Ascii.eqb e LF = false ->
  unlines_with eol ls = String d rest' -> Ascii.eqb d LF = false.
Proof.
  intros Hls Heol He. destruct ls as [|l ls]; [discriminate|].
  cbn [forallb] in Hls. apply andb_prop in Hls. destruct Hls as [Hl _].
  cbn [unlines_with]. destruct l as [|c l].
  - cbn [append]. destruct Heol as [->|(e' & ->)]; cbn [append];
      intros E; injection E as <- _; exact He.
  - apply single_line_cons in Hl. destruct Hl as (Hlf & _ & _).
    cbn [append]. intros E. injection E as <- _. exact Hlf.
Qed.

Lemma universal_newlines_unlines_with (ls : list string) :
  forallb single_line ls = true ->
  universal_newlines (unlines ls) = unlines ls
  /\ universal_newlines (unlines_with (String CR (String LF "")) ls) = unlines ls
  /\ universal_newlines (unlines_with (String CR "") ls) = unlines ls.
Proof.
  induction ls as [|l ls IH]; intros Hls; [repeat split; reflexivity|].
  pose proof Hls as Hall.
  cbn [forallb] in Hls. apply andb_prop in Hls. destruct Hls as [Hl Hls].
  destruct (IH Hls) as (E0 & E1 & E2).
  cbn [unlines unlines_with append]. split; [|split].
  - rewrite universal_newlines_line by exact Hl. now rewrite E0.
  - destruct (@universal_newlines_eol l
                (unlines_with (String CR (String LF "")) ls) Hl) as [E _].
    + intros d rest' Hd.
      eapply unlines_with_head with (e := CR);
        [exact Hls | right; now exists LF | reflexivity | exact Hd].
    + rewrite E, E1. reflexivity.
  - destruct (@universal_newlines_eol l
                (unlines_with (String CR "") ls) Hl) as [_ E].
    + intros d rest' Hd.
      eapply unlines_with_head with (e := CR);
        [exact Hls | now left | reflexivity | exact Hd].
    + rewrite E, E2. reflexivity.
Qed.

(** X15: a label file with Windows or old Macintosh line ends gives the
    same labels as one with ["\n"]. *)
Theorem labels_do_not_depend_on_line_ends (ls : list string) :
  forallb single_line ls = true ->
  load_labels (unlines_with (String CR (String LF "")) ls) = map rstrip ls
  /\ load_labels (unlines_with (String CR "") ls) = map rstrip ls
  /\ load_labels (unlines_with (String LF "") ls) = map rstrip ls.
Proof.
  intros Hls.
  destruct (universal_newlines_unlines_with ls Hls) as (E0 & E1 & E2).
  assert (L : map rstrip (iter_lines "" (unlines ls)) = map rstrip ls).
  { pose proof (@file_lines_unlines ls "" Hls eq_refl) as F.
    unfold file_lines in F. rewrite append_empty_r, E0 in F.
    rewrite F. cbn [String.eqb]. rewrite app_nil_r, map_map.
    apply map_ext. intros l. apply rstrip_trailing_space. reflexivity. }
  assert (U : unlines_with (String LF "") ls = unlines ls).
  { clear. induction ls as [|l ls IH]; [reflexivity|].
    cbn [unlines unlines_with append]. now rewrite IH. }
  unfold load_labels, file_lines. rewrite E1, E2, U, E0. auto.
Qed.

(** Two labels, the first with blanks at its end. *)
Lemma labels_do_not_depend_on_line_ends_witness :
  load_labels (unlines_with (String CR (String LF ""))
                            ["n01440764 tench  "; "n01443537 goldfish"])
  = map rstrip ["n01440764 tench  "; "n01443537 goldfish"]
  /\ load_labels (unlines_with (String CR "")
                               ["n01440764 tench  "; "n01443537 goldfish"])
     = map rstrip ["n01440764 tench  "; "n01443537 goldfish"]
  /\ load_labels (unlines_with (String LF "")
                               ["n01440764 tench  "; "n01443537 goldfish"])
     = map rstrip ["n01440764 tench  "; "n01443537 goldfish"].
Proof.
  apply (@labels_do_not_depend_on_line_ends
           ["n01440764 tench  "; "n01443537 goldfish"]).
  reflexivity.
Defined.

(** ** The transforms on other inputs *)







(** Every pair of pixel values of every channel, checked by evaluation:
    the normalized values are ordered as the pixels are, and lie between
    -2.12 and 2.65. *)
Lemma order_table :
  forallb (fun c =>
    let vs := map (fun p => (p, normalized c (scaled p)))
                  (map Z.of_nat (seq 0 256)) in
    forallb (fun a =>
      SFleb (Float32.of_milli (-2120)) (snd a)
      && SFleb (snd a) (Float32.of_milli 2650)
      && forallb (fun b =>
           Bool.eqb (SFltb (snd a) (snd b)) (fst a <? fst b)%Z) vs) vs)
    (seq 0 3) = true.
Proof.
  vm_compute. reflexivity.
Qed.

Lemma pixel_order (c : nat) (p q : Z) :
  c < 3 -> is_uint8 p = true -> is_uint8 q = true ->
  SFltb (normalized c (scaled p)) (normalized c (scaled q)) = (p <? q)%Z
  /\ SFleb (Float32.of_milli (-2120)) (normalized c (scaled p)) = true
  /\ SFleb (normalized c (scaled p)) (Float32.of_milli 2650) = true.
Proof.
  intros Hc Hp Hq.
  assert (In8 : forall z, is_uint8 z = true ->
                          In (z, normalized c (scaled z))
                             (map (fun p => (p, normalized c (scaled p)))
                                  (map Z.of_nat (seq 0 256)))).
  { intros z Hz. unfold is_uint8 in Hz. apply andb_prop in Hz.
    destruct Hz as [H0 H255]. apply Z.leb_le in H0. apply Z.leb_le in H255.
    apply (in_map (fun p => (p, normalized c (scaled p)))).
    rewrite <- (Z2Nat.id z) by assumption.
    apply in_map. apply in_seq. lia. }
  pose proof order_table as T.
  rewrite forallb_forall in T.
  specialize (T c). rewrite in_seq in T. specialize (T ltac:(lia)).
  cbv zeta in T. rewrite forallb_forall in T.
  specialize (T _ (In8 p Hp)). cbn [fst snd] in T.
  apply andb_prop in T. destruct T as [T T3].
  apply andb_prop in T. destruct T as [T1 T2].
  rewrite forallb_forall in T3.
  specialize (T3 _ (In8 q Hq)). cbn [fst snd] in T3.
  apply eqb_prop in T3. auto.
Qed.


(** X4: within a channel the tensor orders any two positions as the
    cropped image does: a brighter pixel gives a greater value, equal
    pixels give equal order. *)
Theorem normalize_keeps_pixel_order cv (img : NDArray Z) (h w : nat) :
  shape img = [h; w; 3] -> 0 < h -> 0 < w ->
  exists resized crop out,
    Resize cv 256 false 1 img = Ok resized
    /\ CenterCrop cv 224 1 resized = Ok crop
    /\ preprocess cv img = Ok out
    /\ forall c y x y' x',
         c < 3 -> y < 224 -> x < 224 -> y' < 224 -> x' < 224 ->
         SFltb (nchw_at out 0 c y x) (nchw_at out 0 c y' x')
         = (hwc_at crop y x c <? hwc_at crop y' x' c)%Z.
Proof.
  intros Hs Hh Hw.
  destruct (@preprocess_elements cv img h w Hs Hh Hw)
    as (resized & crop & out & HR & _ & HC & _ & HP & _ & _ & _ & Pix).
  exists resized, crop, out.
  split; [exact HR|]. split; [exact HC|]. split; [exact HP|].
  intros c y x y' x' Hc Hy Hx Hy' Hx'.
  destruct (Pix c y x Hc Hy Hx) as (Hu & _ & ->).
  destruct (Pix c y' x' Hc Hy' Hx') as (Hu' & _ & ->).
  apply (@pixel_order c _ _ Hc Hu Hu').
Qed.

(** X5: every value of the tensor lies between -2.12 and 2.65. *)
Theorem preprocess_values_bounded cv (img : NDArray Z) (h w : nat) :
  shape img = [h; w; 3] -> 0 < h -> 0 < w ->
  exists out,
    preprocess cv img = Ok out
    /\ Forall (fun v => SFleb (Float32.of_milli (-2120)) v = true
                        /\ SFleb v (Float32.of_milli 2650) = true)
              (data out).
Proof.
  intros Hs Hh Hw.
  destruct (@preprocess_elements cv img h w Hs Hh Hw)
    as (resized & crop & out & _ & _ & _ & _ & HP & _ & Lo & El & _).
  exists out. split; [exact HP|].
  unfold Float32.t in *. apply Forall_nth. intros k d Hk.
  rewrite (nth_indep _ d S754_nan) by exact Hk.
  rewrite Lo in Hk. destruct (El k Hk) as (p & Hp & ->).
  apply (@pixel_order (k / (224 * 224)) p p); try assumption.
  apply Nat.Div0.div_lt_upper_bound. lia.
Qed.



(** The order of the values computed from a 300 x 600 image. *)
Lemma normalize_keeps_pixel_order_witness :
  exists resized crop out,
    Resize cv_nearest 256 false 1 (solid_image 300 600 [200; 100; 50]%Z) = Ok resized
    /\ CenterCrop cv_nearest 224 1 resized = Ok crop
    /\ preprocess cv_nearest (solid_image 300 600 [200; 100; 50]%Z) = Ok out
    /\ forall c y x y' x',
         c < 3 -> y < 224 -> x < 224 -> y' < 224 -> x' < 224 ->
         SFltb (nchw_at out 0 c y x) (nchw_at out 0 c y' x')
         = (hwc_at crop y x c <? hwc_at crop y' x' c)%Z.
Proof.
  apply (@normalize_keeps_pixel_order cv_nearest
           (solid_image 300 600 [200; 100; 50]%Z) 300 600).
  - reflexivity.
  - lia.
  - lia.
Defined.

(** The range of the values computed from a 300 x 600 image. *)
Lemma preprocess_values_bounded_witness :
  exists out,
    preprocess cv_nearest (solid_image 300 600 [200; 100; 50]%Z) = Ok out
    /\ Forall (fun v => SFleb (Float32.of_milli (-2120)) v = true
                        /\ SFleb v (Float32.of_milli 2650) = true)
              (data out).
Proof.
  apply (@preprocess_values_bounded cv_nearest
           (solid_image 300 600 [200; 100; 50]%Z) 300 600).
  - reflexivity.
  - lia.
  - lia.
Defined.

(** ** The notebook from top to bottom *)






